(** * ping.hpp: ICMP echo connectivity check

    A shallow embedding of [ping.hpp]: the IPv4 and ICMP header codecs, the
    Internet checksum, the [pinger] object with its timer and receive
    completion handlers, and the entry point [ping].

    Conventions.
    - [unsigned char] buffers are [list byte]; a byte is read as an integer
      through [uchar], and integers are narrowed with [to_uchar],
      [to_ushort], [to_uint] and [to_uint8], which write out the wrap-around
      of the C++ conversions.
    - [std::istream] is a record of the unread bytes and the two state bits
      the code can set ([failbit], [eofbit]).
    - The [boost::asio] event loop is a function over a list of events
      supplied by the environment (clock advance, timer completion, receive
      completion); what the operating system decides (process id, whether
      the socket can be opened, whether a send succeeds) is an
      [environment] record. *)

From Stdlib Require Import ZArith List Bool Lia.
From Stdlib Require String.
Import String.StringSyntax.
Delimit Scope string_scope with string.
From Stdlib.Strings Require Import Byte.
Import ListNotations.
Local Open Scope Z_scope.

(** ** Integer conversions *)

Definition uchar (b : byte) : Z := Z.of_N (Byte.to_N b).

Definition to_uchar (z : Z) : byte :=
  match Byte.of_N (Z.to_N (z mod 256)) with
  | Some b => b
  | None => x00
  end.

Definition to_uint8 (z : Z) : Z := z mod 2 ^ 8.
Definition to_ushort (z : Z) : Z := z mod 2 ^ 16.
Definition to_uint (z : Z) : Z := z mod 2 ^ 32.
Definition to_size_t (z : Z) : Z := z mod 2 ^ 64.

(** ** Raw buffers: [unsigned char rep_[N]] *)

Definition rep_at (rep : list byte) (i : nat) : Z := uchar (nth i rep x00).

(** [rep[i] = b] *)
Definition rep_store (rep : list byte) (i : nat) (b : byte) : list byte :=
  firstn i rep ++ b :: skipn (S i) rep.

(** Copy of [src] into [rep] from offset [off] on, as [istream::read] does
    with the characters it extracted. *)
Definition rep_blit (rep : list byte) (off : nat) (src : list byte) : list byte :=
  firstn off rep ++ src ++ skipn (off + length src) rep.

(** ** [std::istream] over a byte buffer *)

Module istream.

Record t := mk { data : list byte; failbit : bool; eofbit : bool }.

Definition of_bytes (bs : list byte) : t := mk bs false false.

Definition good (s : t) : bool := negb (failbit s) && negb (eofbit s).

(** [operator bool]: [!fail()]. *)
Definition ok (s : t) : bool := negb (failbit s).

(** [setstate(std::ios::failbit)] *)
Definition setstate_failbit (s : t) : t := mk (data s) true (eofbit s).

(** [read(dst, n)]: unformatted input.  On a stream that is not good the
    sentry fails, [failbit] is set and nothing is extracted; otherwise
    up to [n] characters are extracted, and when the buffer runs out
    first both [eofbit] and [failbit] are set.  The characters extracted
    are returned next to the stream. *)
Definition read (s : t) (n : Z) : list byte * t :=
  if good s then
    let k := Z.to_nat n in
    let got := firstn k (data s) in
    if Z.of_nat (length got) <? n
    then (got, mk (skipn k (data s)) true true)
    else (got, mk (skipn k (data s)) (failbit s) (eofbit s))
  else ([], setstate_failbit s).

End istream.

(** ** IPv4 header *)

Module ipv4_header.

Record t := mk { rep_ : list byte }.

(** [ipv4_header()]: sixty zero bytes. *)
Definition ctor : t := mk (repeat x00 60).

Definition decode (h : t) (a b : nat) : Z :=
  to_ushort (Z.shiftl (rep_at (rep_ h) a) 8 + rep_at (rep_ h) b).

Definition version (h : t) : Z :=
  to_uint8 (Z.land (Z.shiftr (rep_at (rep_ h) 0) 4) 15).
Definition header_length (h : t) : Z :=
  to_ushort (Z.land (rep_at (rep_ h) 0) 15 * 4).
Definition type_of_service (h : t) : Z := rep_at (rep_ h) 1.
Definition total_length (h : t) : Z := decode h 2 3.
Definition identification (h : t) : Z := decode h 4 5.
Definition dont_fragment (h : t) : bool :=
  negb (Z.land (rep_at (rep_ h) 6) 64 =? 0).
Definition more_fragments (h : t) : bool :=
  negb (Z.land (rep_at (rep_ h) 6) 32 =? 0).
Definition fragment_offset (h : t) : Z := to_ushort (Z.land (decode h 6 7) 8191).
Definition time_to_live (h : t) : Z := rep_at (rep_ h) 8.
Definition protocol (h : t) : Z := rep_at (rep_ h) 9.
Definition header_checksum (h : t) : Z := decode h 10 11.

(** [address_v4::bytes_type]: the four bytes in network order. *)
Definition source_address (h : t) : list byte :=
  [nth 12 (rep_ h) x00; nth 13 (rep_ h) x00; nth 14 (rep_ h) x00; nth 15 (rep_ h) x00].
Definition destination_address (h : t) : list byte :=
  [nth 16 (rep_ h) x00; nth 17 (rep_ h) x00; nth 18 (rep_ h) x00; nth 19 (rep_ h) x00].

(** [options_length] as [operator>>] computes it from the header read. *)
Definition options_length (h : t) : Z := header_length h - 20.

(** [operator>>(std::istream&, ipv4_header&)] *)
Definition operator_shr (ins : istream.t) (header : t) : istream.t * t :=
  let '(got, ins) := istream.read ins 20 in
  let header := mk (rep_blit (rep_ header) 0 got) in
  let ins := if negb (version header =? 4) then istream.setstate_failbit ins else ins in
  let options_length := options_length header in
  if (options_length <? 0) || (options_length >? 40)
  then (istream.setstate_failbit ins, header)
  else
    let '(got, ins) := istream.read ins options_length in
    (ins, mk (rep_blit (rep_ header) 20 got)).

End ipv4_header.

(** ** ICMP header *)

Module icmp_header.

Record t := mk { rep_ : list byte }.

Definition echo_reply : Z := 0.
Definition destination_unreachable : Z := 3.
Definition source_quench : Z := 4.
Definition redirect : Z := 5.
Definition echo_request : Z := 8.
Definition time_exceeded : Z := 11.
Definition parameter_problem : Z := 12.
Definition timestamp_request : Z := 13.
Definition timestamp_reply : Z := 14.
Definition info_request : Z := 15.
Definition info_reply : Z := 16.
Definition address_request : Z := 17.
Definition address_reply : Z := 18.

(** [icmp_header()]: eight zero bytes. *)
Definition ctor : t := mk (repeat x00 8).

Definition decode (h : t) (a b : nat) : Z :=
  to_ushort (Z.shiftl (rep_at (rep_ h) a) 8 + rep_at (rep_ h) b).

Definition encode (h : t) (a b : nat) (n : Z) : t :=
  let rep := rep_store (rep_ h) a (to_uchar (Z.shiftr n 8)) in
  mk (rep_store rep b (to_uchar (Z.land n 255))).

Definition type (h : t) : Z := rep_at (rep_ h) 0.
Definition code (h : t) : Z := rep_at (rep_ h) 1.
Definition checksum (h : t) : Z := decode h 2 3.
Definition identifier (h : t) : Z := decode h 4 5.
Definition sequence_number (h : t) : Z := decode h 6 7.

Definition set_type (h : t) (n : Z) : t := mk (rep_store (rep_ h) 0 (to_uchar n)).
Definition set_code (h : t) (n : Z) : t := mk (rep_store (rep_ h) 1 (to_uchar n)).
Definition set_checksum (h : t) (n : Z) : t := encode h 2 3 (to_ushort n).
Definition set_identifier (h : t) (n : Z) : t := encode h 4 5 (to_ushort n).
Definition set_sequence_number (h : t) (n : Z) : t := encode h 6 7 (to_ushort n).

(** [operator>>(std::istream&, icmp_header&)] *)
Definition operator_shr (ins : istream.t) (header : t) : istream.t * t :=
  let '(got, ins) := istream.read ins 8 in
  (ins, mk (rep_blit (rep_ header) 0 got)).

(** [operator<<(std::ostream&, const icmp_header&)]: the eight bytes
    appended to the output sequence. *)
Definition operator_shl (os : list byte) (header : t) : list byte :=
  os ++ firstn 8 (rep_ header).

End icmp_header.

(** ** Internet checksum *)

(** The [while] loop of [compute_checksum]: one high byte, and a low byte
    when the body has one left; [sum] is an [unsigned int]. *)
Fixpoint checksum_loop (sum : Z) (body : list byte) : Z :=
  match body with
  | [] => sum
  | hi :: rest =>
      let sum := to_uint (sum + Z.shiftl (uchar hi) 8) in
      match rest with
      | [] => sum
      | lo :: rest' => checksum_loop (to_uint (sum + uchar lo)) rest'
      end
  end.

Definition compute_checksum (header : icmp_header.t) (body : list byte) : icmp_header.t :=
  let sum := to_uint (Z.shiftl (icmp_header.type header) 8 + icmp_header.code header
                      + icmp_header.identifier header
                      + icmp_header.sequence_number header) in
  let sum := checksum_loop sum body in
  let sum := to_uint (Z.shiftr sum 16 + Z.land sum 65535) in
  let sum := to_uint (sum + Z.shiftr sum 16) in
  icmp_header.set_checksum header (to_uint (Z.lnot sum)).

(** ** The pinger *)

(** What the operating system decides during one call of [ping]. *)
Record environment := mk_environment {
  getpid : Z;                 (* [::getpid()] *)
  socket_opens : bool;        (* does [icmp::socket(ctx, icmp::v4())] succeed *)
  send_to_ok : Z -> bool      (* does [send_to] succeed for the probe with
                                 this sequence number *)
}.

(** [boost::system::system_error], the only exception the calls made here
    throw. *)
Inductive exception := system_error.

(** The completion handlers given to [timer_.async_wait]: the lambda of
    [start_send] and [boost::bind(&pinger::start_send, this)]. *)
Inductive timer_handler := handle_timeout_cb | start_send_cb.

(** The members of [pinger].  [socket_] is reduced to whether it is open and
    whether an [async_receive] is outstanding on it, [timer_] to its expiry
    and the handler waiting on it.  Time points are milliseconds of the
    steady clock. *)
Record pinger := mk_pinger {
  socket_is_open : bool;
  receive_wait : bool;
  timer_expiry : Z;
  timer_wait : option timer_handler;
  time_sent_ : Z;
  reply_buffer_ : list byte;
  destination_ : Z;
  num_replies_ : Z;
  sequence_number_ : Z;
  count_ : Z;
  timer_interval_ : Z
}.

Definition with_socket_is_open (v : bool) (p : pinger) : pinger :=
  mk_pinger v (receive_wait p) (timer_expiry p) (timer_wait p) (time_sent_ p)
    (reply_buffer_ p) (destination_ p) (num_replies_ p) (sequence_number_ p)
    (count_ p) (timer_interval_ p).
Definition with_receive_wait (v : bool) (p : pinger) : pinger :=
  mk_pinger (socket_is_open p) v (timer_expiry p) (timer_wait p) (time_sent_ p)
    (reply_buffer_ p) (destination_ p) (num_replies_ p) (sequence_number_ p)
    (count_ p) (timer_interval_ p).
Definition with_timer (expiry : Z) (h : option timer_handler) (p : pinger) : pinger :=
  mk_pinger (socket_is_open p) (receive_wait p) expiry h (time_sent_ p)
    (reply_buffer_ p) (destination_ p) (num_replies_ p) (sequence_number_ p)
    (count_ p) (timer_interval_ p).
Definition with_time_sent_ (v : Z) (p : pinger) : pinger :=
  mk_pinger (socket_is_open p) (receive_wait p) (timer_expiry p) (timer_wait p) v
    (reply_buffer_ p) (destination_ p) (num_replies_ p) (sequence_number_ p)
    (count_ p) (timer_interval_ p).
Definition with_reply_buffer_ (v : list byte) (p : pinger) : pinger :=
  mk_pinger (socket_is_open p) (receive_wait p) (timer_expiry p) (timer_wait p)
    (time_sent_ p) v (destination_ p) (num_replies_ p) (sequence_number_ p)
    (count_ p) (timer_interval_ p).
Definition with_num_replies_ (v : Z) (p : pinger) : pinger :=
  mk_pinger (socket_is_open p) (receive_wait p) (timer_expiry p) (timer_wait p)
    (time_sent_ p) (reply_buffer_ p) (destination_ p) v (sequence_number_ p)
    (count_ p) (timer_interval_ p).
Definition with_sequence_number_ (v : Z) (p : pinger) : pinger :=
  mk_pinger (socket_is_open p) (receive_wait p) (timer_expiry p) (timer_wait p)
    (time_sent_ p) (reply_buffer_ p) (destination_ p) (num_replies_ p) v
    (count_ p) (timer_interval_ p).
Definition with_settings (address count interval : Z) (p : pinger) : pinger :=
  mk_pinger (socket_is_open p) (receive_wait p) (timer_expiry p) (timer_wait p)
    (time_sent_ p) (reply_buffer_ p) address (num_replies_ p) (sequence_number_ p)
    count interval.

(** [pinger::get_identifier] *)
Definition get_identifier (env : environment) : Z := to_ushort (getpid env).

(** [pinger(io_context&)], once the socket is open.  [count_] and
    [timer_interval_] are left to [ping], which sets them before any use. *)
Definition pinger_ctor : pinger :=
  mk_pinger true false 0 None 0 [] 0 0 0 0 0.

(** The payload [std::string body(...)] of every request. *)
Definition body : list byte :=
  String.list_byte_of_string "0123456789ABCDEFGHIJKLMNOPQRSTUVWXYZ"%string.

(** A datagram handed to [send_to]: when, to which address, which bytes. *)
Record packet := mk_packet { sent_at : Z; sent_to : Z; payload : list byte }.

(** What a handler leaves behind: the object, the datagrams transmitted,
    and the exception it ended with, if any. *)
Record effect := mk_effect {
  after : pinger;
  emitted : list packet;
  raised : option exception
}.

(** The echo request [start_send] builds for a sequence number. *)
Definition build_echo_request (env : environment) (seq : Z) : icmp_header.t :=
  let echo_request := icmp_header.ctor in
  let echo_request := icmp_header.set_type echo_request icmp_header.echo_request in
  let echo_request := icmp_header.set_code echo_request 0 in
  let echo_request := icmp_header.set_identifier echo_request (get_identifier env) in
  let echo_request := icmp_header.set_sequence_number echo_request seq in
  compute_checksum echo_request body.

(** [pinger::start_send], the steady clock reading [now]. *)
Definition start_send (env : environment) (now : Z) (p : pinger) : effect :=
  if sequence_number_ p >=? count_ p then mk_effect p [] None
  else
    let p := with_sequence_number_ (to_uint8 (sequence_number_ p + 1)) p in
    let echo_request := build_echo_request env (sequence_number_ p) in
    let request_buffer := icmp_header.operator_shl [] echo_request ++ body in
    let p := with_time_sent_ now p in
    if send_to_ok env (sequence_number_ p) then
      let p := with_timer (time_sent_ p + timer_interval_ p) (Some handle_timeout_cb) p in
      mk_effect p [mk_packet now (destination_ p) request_buffer] None
    else mk_effect p [] (Some system_error).

(** The lambda of [start_send], run when the timer wait completes. *)
Definition handle_timeout (p : pinger) : pinger :=
  if sequence_number_ p >=? count_ p then with_socket_is_open false p
  else with_timer (time_sent_ p + timer_interval_ p) (Some start_send_cb) p.

(** [pinger::start_receive]: empty the buffer and wait for a datagram. *)
Definition start_receive (p : pinger) : pinger :=
  with_receive_wait true (with_reply_buffer_ [] p).

(** The test of the lambda of [start_receive] on the decoded reply. *)
Definition reply_matches (env : environment) (p : pinger)
    (ins : istream.t) (icmp_hdr : icmp_header.t) : bool :=
  istream.ok ins
  && (icmp_header.type icmp_hdr =? icmp_header.echo_reply)
  && (icmp_header.identifier icmp_hdr =? get_identifier env)
  && (icmp_header.sequence_number icmp_hdr =? sequence_number_ p).

(** The lambda of [start_receive], run when the receive completes with
    [received] (the [bytes_transferred] bytes written to the buffer). *)
Definition handle_receive (env : environment) (p : pinger) (received : list byte) : pinger :=
  let p := with_reply_buffer_ (reply_buffer_ p ++ received) p in
  let ins := istream.of_bytes (reply_buffer_ p) in
  let '(ins, ipv4_hdr) := ipv4_header.operator_shr ins ipv4_header.ctor in
  let '(ins, icmp_hdr) := icmp_header.operator_shr ins icmp_header.ctor in
  let p := with_reply_buffer_ (istream.data ins) p in
  let p := if reply_matches env p ins icmp_hdr
           then with_num_replies_ (to_size_t (num_replies_ p + 1)) p
           else p in
  if sequence_number_ p <? count_ p then start_receive p else p.

(** ** The event loop *)

(** What the environment makes happen while [io_context::run] waits. *)
Inductive event :=
| Elapse (ms : N)                 (* the steady clock advances *)
| TimerExpires                    (* the timer wait completes *)
| Receive (datagram : list byte)  (* a datagram arrives on the socket *)
| ReceiveError.                   (* the receive completes with an error code *)

Record loop := mk_loop { obj : pinger; clock : Z; wire : list packet }.

(** The bytes [async_receive] writes for a datagram: the buffer prepared,
    [reply_buffer_.prepare(1024)], holds 1024 of them at most. *)
Definition bytes_transferred (datagram : list byte) : list byte :=
  firstn 1024 datagram.

(** Closing the socket cancels the outstanding receive; its handler then
    runs with an error code and no bytes. *)
Definition cancelled_receive (env : environment) (p : pinger) : pinger :=
  if negb (socket_is_open p) && receive_wait p
  then handle_receive env (with_receive_wait false p) []
  else p.

(** One completion handler run by [io_context::run]; [None] when the event
    cannot happen in this state (no wait outstanding, timer not yet due). *)
Definition dispatch (env : environment) (ev : event) (l : loop)
    : option (loop * option exception) :=
  let p := obj l in
  match ev with
  | Elapse ms => Some (mk_loop p (clock l + Z.of_N ms) (wire l), None)
  | TimerExpires =>
      match timer_wait p with
      | Some h =>
          if timer_expiry p <=? clock l then
            let p := with_timer (timer_expiry p) None p in
            match h with
            | handle_timeout_cb =>
                let p := cancelled_receive env (handle_timeout p) in
                Some (mk_loop p (clock l) (wire l), None)
            | start_send_cb =>
                let e := start_send env (clock l) p in
                Some (mk_loop (after e) (clock l) (wire l ++ emitted e), raised e)
            end
          else None
      | None => None
      end
  | Receive datagram =>
      if receive_wait p && socket_is_open p
      then Some (mk_loop (handle_receive env (with_receive_wait false p)
                                         (bytes_transferred datagram))
                         (clock l) (wire l), None)
      else None
  | ReceiveError =>
      if receive_wait p && socket_is_open p
      then Some (mk_loop (handle_receive env (with_receive_wait false p) [])
                         (clock l) (wire l), None)
      else None
  end.

(** No asynchronous operation is outstanding. *)
Definition idle (p : pinger) : bool :=
  negb (receive_wait p) && match timer_wait p with None => true | Some _ => false end.

(** [io_context::run]: handlers run until no operation is outstanding or a
    handler throws.  [None]: the events given do not bring the loop to its
    end, or one of them cannot happen. *)
Fixpoint run (env : environment) (evs : list event) (l : loop)
    : option (loop * option exception) :=
  if idle (obj l) then Some (l, None)
  else
    match evs with
    | [] => None
    | ev :: evs' =>
        match dispatch env ev l with
        | Some (l', None) => run env evs' l'
        | r => r
        end
    end.

(** ** The entry point *)

Inductive result := returns (b : bool) | throws (e : exception).

(** The [try] block of [ping]: the loop state it ends in and the exception
    caught, if any. *)
Definition ping_session (env : environment) (evs : list event)
    (address count timer_milliseconds : Z) : option (loop * option exception) :=
  let p := pinger_ctor in
  let p := with_settings address (if count <? 2 then 2 else count) timer_milliseconds p in
  let e := start_send env 0 p in
  match raised e with
  | Some x => Some (mk_loop (after e) 0 (emitted e), Some x)
  | None => run env evs (mk_loop (start_receive (after e)) 0 (emitted e))
  end.

(** The [return] statement of [ping]. *)
Definition verdict (p : pinger) : bool :=
  to_uint8 (num_replies_ p) >? Z.quot (count_ p) 2.

(** [ping].  The [pinger] is constructed before the [try] block, so an
    exception of its constructor leaves the function. *)
Definition ping (env : environment) (evs : list event)
    (address count timer_milliseconds : Z) : option result :=
  if socket_opens env then
    match ping_session env evs address count timer_milliseconds with
    | Some (l, _) => Some (returns (verdict (obj l)))
    | None => None
    end
  else Some (throws system_error).

(** ** Reading the definitions back: what the claims speak of *)

(** Decoding an IPv4 header from a byte stream: [operator>>] on a fresh
    stream over the bytes and a fresh header. *)
Definition ipv4_decode (bs : list byte) : istream.t * ipv4_header.t :=
  ipv4_header.operator_shr (istream.of_bytes bs) ipv4_header.ctor.

(** The 16-bit words of a body, two bytes at a time, big-endian; a last odd
    byte is the high byte of a word whose low byte is zero. *)
Fixpoint body_words (body : list byte) : list Z :=
  match body with
  | [] => []
  | hi :: rest =>
      match rest with
      | [] => [Z.shiftl (uchar hi) 8]
      | lo :: rest' => Z.lor (Z.shiftl (uchar hi) 8) (uchar lo) :: body_words rest'
      end
  end.

Definition sum_words (ws : list Z) : Z := fold_right Z.add 0 ws.

(** The Internet checksum as the specification words it: the sum over
    the integers of the header words and the body words, carries above 16
    bits folded back in twice, complemented and cut to 16 bits. *)
Definition internet_checksum (type code identifier sequence_number : Z)
    (body : list byte) : Z :=
  let sum := Z.lor (Z.shiftl type 8) code + identifier + sequence_number
             + sum_words (body_words body) in
  let sum := Z.shiftr sum 16 + Z.land sum 65535 in
  let sum := sum + Z.shiftr sum 16 in
  Z.land (Z.lnot sum) 65535.

(** Events dispatched one after the other, whether or not the loop would
    still be waiting: the state an event sequence leads to. *)
Fixpoint play (env : environment) (evs : list event) (l : loop)
    : option (loop * option exception) :=
  match evs with
  | [] => Some (l, None)
  | ev :: evs' =>
      match dispatch env ev l with
      | Some (l', None) => play env evs' l'
      | r => r
      end
  end.

(** The loop state [ping] enters [io_context::run] with, when the first
    send succeeds. *)
Definition ping_started (env : environment) (address count timer_milliseconds : Z) : loop :=
  let p := with_settings address (if count <? 2 then 2 else count) timer_milliseconds
             pinger_ctor in
  let e := start_send env 0 p in
  mk_loop (start_receive (after e)) 0 (emitted e).

(** The two extractions of the receive handler, [is >> ipv4_hdr >> icmp_hdr],
    on a stream over the given bytes. *)
Definition decode_reply (bs : list byte) : istream.t * icmp_header.t :=
  icmp_header.operator_shr (fst (ipv4_decode bs)) icmp_header.ctor.

(** The sequence number an inbound datagram answers, when it decodes to an
    echo reply. *)
Definition echo_reply_seq (datagram : list byte) : option Z :=
  let r := decode_reply datagram in
  if istream.ok (fst r) && (icmp_header.type (snd r) =? icmp_header.echo_reply)
  then Some (icmp_header.sequence_number (snd r))
  else None.

(** ** Concrete inputs *)

(** A canonical header: version 4, header length 5 words, from 10.0.0.1 to
    10.0.0.2. *)
Definition canonical_ipv4 : list byte :=
  [x45; x00; x00; x1c; x00; x00; x00; x00; x40; x01; x00; x00;
   x0a; x00; x00; x01; x0a; x00; x00; x02].

(** An environment in which nothing fails; the process id is 0x1234. *)
Definition sample_env : environment := mk_environment 4660 true (fun _ => true).

(** A body of 131076 bytes, each 0xff. *)
Definition long_body : list byte := repeat xff (Z.to_nat 131076).

(** What holds of the loop between handlers while no send has failed:
    [count_] is the clamped count [c], as many datagrams are on the wire as
    the sequence number says, and the timer waits for the next send only
    while probes are left. *)
Definition run_inv (c : Z) (l : loop) : Prop :=
  count_ (obj l) = c /\
  0 <= sequence_number_ (obj l) <= c /\
  Z.of_nat (length (wire l)) = sequence_number_ (obj l) /\
  (timer_wait (obj l) = None -> sequence_number_ (obj l) = c) /\
  (timer_wait (obj l) = Some start_send_cb -> sequence_number_ (obj l) < c).


(** An inbound datagram: the canonical IPv4 header and an ICMP header of
    type Echo Reply with the given identifier and sequence number. *)
Definition echo_reply_datagram (id seq : Z) : list byte :=
  canonical_ipv4 ++
  icmp_header.operator_shl []
    (icmp_header.set_sequence_number (icmp_header.set_identifier icmp_header.ctor id) seq).

(** The events of a run with count 2 in which nothing is received: the
    first timeout, the re-armed wait, the second probe's timeout. *)
Definition quiet_events : list event :=
  [Elapse 1000; TimerExpires; TimerExpires; Elapse 1000; TimerExpires].

(** The same run with 256, respectively 3, replies to the first probe. *)
Definition flood_events : list event :=
  repeat (Receive (echo_reply_datagram 4660 1)) 256 ++ quiet_events.
Definition triple_events : list event :=
  repeat (Receive (echo_reply_datagram 4660 1)) 3 ++ quiet_events.

(** Environments in which every send fails, and in which the socket cannot
    be opened. *)
Definition env_send_fails : environment := mk_environment 4660 true (fun _ => false).
Definition env_no_socket : environment := mk_environment 4660 false (fun _ => true).


(** The acceptance test of the receive handler on the bytes of the stream:
    both headers extracted with the stream good, type Echo Reply,
    identifier the process token, sequence number the current one. *)
Definition reply_matched (env : environment) (p : pinger) (bs : list byte) : bool :=
  istream.ok (fst (decode_reply bs))
  && (icmp_header.type (snd (decode_reply bs)) =? icmp_header.echo_reply)
  && (icmp_header.identifier (snd (decode_reply bs)) =? get_identifier env)
  && (icmp_header.sequence_number (snd (decode_reply bs)) =? sequence_number_ p).


(** The claim of C5 on the time between a timeout check and the next
    probe: every datagram sent after the check is sent at least one
    interval after it. *)
Definition full_interval_after_timeout_check : Prop :=
  forall env l l1 evs l2 pk,
    timer_wait (obj l) = Some handle_timeout_cb ->
    dispatch env TimerExpires l = Some (l1, None) ->
    play env evs l1 = Some (l2, None) ->
    In pk (wire l2) -> ~ In pk (wire l) ->
    clock l + timer_interval_ (obj l) <= sent_at pk.

(** The loop of a run with count 2 and interval 1000 when the timeout of
    the first probe is due. *)
Definition timeout_due : loop :=
  mk_loop (obj (ping_started sample_env 1 2 1000)) 1000
          (wire (ping_started sample_env 1 2 1000)).


(** ** Further definitions for the properties of the codecs and of the run *)


(** The sum of all 16-bit words of an ICMP message, the checksum word
    included. *)
Definition message_sum (h : icmp_header.t) (body : list byte) : Z :=
  Z.shiftl (icmp_header.type h) 8 + icmp_header.code h + icmp_header.checksum h
  + icmp_header.identifier h + icmp_header.sequence_number h
  + sum_words (body_words body).

(** The two folds of [compute_checksum]. *)
Definition fold_twice (sum : Z) : Z :=
  let sum := Z.shiftr sum 16 + Z.land sum 65535 in
  sum + Z.shiftr sum 16.


Definition ipv4_with_options : list byte :=
  [x46; x00; x00; x20; x12; x34; x40; x00; x40; x01; x00; x00;
   x0a; x00; x00; x01; x0a; x00; x00; x02; x94; x04; x00; x00] ++ [xaa; xbb].

Definition reply_with_options : list byte :=
  firstn 24 ipv4_with_options ++ [x00; x00; x00; x00; x12; x34; x00; x01] ++ [xaa; xbb].


(** The bytes of the echo request with a sequence number, as [start_send]
    hands them to [send_to]. *)
Definition echo_request_bytes (env : environment) (seq : Z) : list byte :=
  icmp_header.operator_shl [] (build_echo_request env seq) ++ body.

(** The sequence numbers 1 to n. *)
Definition probe_numbers (n : nat) : list Z := map Z.of_nat (seq 1 n).

(** The datagrams on the wire are the echo requests 1, 2, ... in this
    order, all to one address. *)
Definition wire_in_order (env : environment) (address : Z) (w : list packet) : Prop :=
  map payload w = map (echo_request_bytes env) (probe_numbers (length w)) /\
  Forall (fun pk => sent_to pk = address) w.

(** Send times at least [ms] apart. *)
Fixpoint spaced (ms : Z) (ts : list Z) : Prop :=
  match ts with
  | [] => True
  | t1 :: rest =>
      match rest with
      | [] => True
      | t2 :: _ => t1 + ms <= t2 /\ spaced ms rest
      end
  end.

(** The timer, while a wait is outstanding, expires one interval after the
    last send, and the last datagram on the wire was sent then. *)
Definition timing_inv (l : loop) : Prop :=
  (timer_wait (obj l) <> None ->
     timer_expiry (obj l) = time_sent_ (obj l) + timer_interval_ (obj l)) /\
  spaced (timer_interval_ (obj l)) (map sent_at (wire l)) /\
  (wire l <> [] -> last (map sent_at (wire l)) 0 = time_sent_ (obj l)).


(** Does a byte sequence decode to an echo reply that carries the process
    token as its identifier. *)
Definition addressed_to (env : environment) (bs : list byte) : bool :=
  istream.ok (fst (decode_reply bs))
  && (icmp_header.type (snd (decode_reply bs)) =? icmp_header.echo_reply)
  && (icmp_header.identifier (snd (decode_reply bs)) =? get_identifier env).

(** While a receive is outstanding the reply buffer is empty, and nothing
    has been counted. *)
Definition nothing_counted (p : pinger) : Prop :=
  num_replies_ p = 0 /\ (receive_wait p = true -> reply_buffer_ p = []).

(** A datagram that answers probe 2 of another process (identifier 0x4321). *)
Definition foreign_events : list event :=
  repeat (Receive (echo_reply_datagram 17185 1)) 3 ++ quiet_events.


(** The loop after a sequence of events. *)
Definition loop_after (env : environment) (evs : list event) (l : loop) : loop :=
  match play env evs l with
  | Some (l', _) => l'
  | None => l
  end.

(** A run with count 2 just after the second, last probe was sent. *)
Definition last_probe_sent : loop :=
  loop_after sample_env [Elapse 1000; TimerExpires; TimerExpires]
    (ping_started sample_env 1 2 1000).








(** * Properties *)

(** ** Bytes and narrowing conversions *)

Lemma uchar_range (b : byte) : 0 <= uchar b < 256.
Proof.
  unfold uchar. pose proof (Byte.to_N_bounded b). lia.
Qed.

Lemma uchar_to_uchar (z : Z) : 0 <= z < 256 -> uchar (to_uchar z) = z.
Proof.
  intros Hz. unfold uchar, to_uchar.
  rewrite Z.mod_small by lia.
  destruct (Byte.of_N (Z.to_N z)) as [b|] eqn:E.
  - apply Byte.to_of_N in E. rewrite E. apply Z2N.id. lia.
  - apply Byte.of_N_None_iff in E. apply N2Z.inj_lt in E.
    rewrite Z2N.id in E by lia. simpl in E. lia.
Qed.

Lemma to_uchar_uchar (b : byte) : to_uchar (uchar b) = b.
Proof.
  unfold to_uchar, uchar. pose proof (Byte.to_N_bounded b).
  rewrite Z.mod_small by lia. rewrite N2Z.id, Byte.of_to_N. reflexivity.
Qed.

Lemma land_15_range (z : Z) : 0 <= Z.land z 15 <= 15.
Proof.
  assert (E : Z.land z 15 = z mod 16) by (apply (Z.land_ones z 4); lia).
  rewrite E. pose proof (Z.mod_pos_bound z 16). lia.
Qed.

Lemma to_size_t_succ_neq (n : Z) : to_size_t (n + 1) <> n.
Proof.
  unfold to_size_t. intros H.
  pose proof (Z.mod_pos_bound (n + 1) (2 ^ 64) ltac:(lia)) as Hb.
  rewrite H in Hb.
  destruct (Z.eq_dec (n + 1) (2 ^ 64)) as [E|E].
  - rewrite E, Z.mod_same in H by lia. lia.
  - rewrite Z.mod_small in H by lia. lia.
Qed.

(** ** Raw buffers *)

Lemma rep_blit_0_nth (rep src : list byte) (i : nat) :
  (i < length src)%nat -> nth i (rep_blit rep 0 src) x00 = nth i src x00.
Proof.
  intros Hi. unfold rep_blit. simpl. rewrite app_nth1 by assumption. reflexivity.
Qed.

Lemma rep_blit_nth_before (rep src : list byte) (off i : nat) :
  (i < off <= length rep)%nat -> nth i (rep_blit rep off src) x00 = nth i rep x00.
Proof.
  intros Hi. unfold rep_blit.
  rewrite app_nth1 by (rewrite length_firstn; lia).
  rewrite nth_firstn. destruct (i <? off)%nat eqn:E; [reflexivity|].
  apply Nat.ltb_ge in E. lia.
Qed.

Lemma rep_blit_0_length (rep src : list byte) :
  (length src <= length rep)%nat -> length (rep_blit rep 0 src) = length rep.
Proof.
  intros H. unfold rep_blit. simpl. rewrite length_app, length_skipn. lia.
Qed.

Lemma nth_0_firstn (bs : list byte) (k : nat) :
  (0 < k)%nat -> nth 0 (firstn k bs) x00 = nth 0 bs x00.
Proof.
  intros Hk. destruct k as [|k]; [lia|]. destruct bs; reflexivity.
Qed.

(** ** IPv4 header decoding *)

Lemma ipv4_header_length_range (h : ipv4_header.t) :
  0 <= ipv4_header.header_length h <= 60 /\
  ipv4_header.header_length h = 4 * Z.land (rep_at (ipv4_header.rep_ h) 0) 15.
Proof.
  unfold ipv4_header.header_length, to_ushort.
  pose proof (land_15_range (rep_at (ipv4_header.rep_ h) 0)).
  rewrite Z.mod_small by lia. lia.
Qed.

Lemma istream_read_fresh (bs : list byte) (n : Z) :
  istream.read (istream.of_bytes bs) n =
  (firstn (Z.to_nat n) bs,
   if Z.of_nat (length bs) <? n
   then istream.mk (skipn (Z.to_nat n) bs) true true
   else istream.mk (skipn (Z.to_nat n) bs) false false).
Proof.
  unfold istream.read. simpl. rewrite length_firstn.
  destruct (Z.of_nat (length bs) <? n) eqn:E.
  - apply Z.ltb_lt in E.
    replace (Z.of_nat (Nat.min (Z.to_nat n) (length bs)) <? n) with true
      by (symmetry; apply Z.ltb_lt; lia).
    reflexivity.
  - apply Z.ltb_ge in E.
    replace (Z.of_nat (Nat.min (Z.to_nat n) (length bs)) <? n) with false
      by (symmetry; apply Z.ltb_ge; lia).
    reflexivity.
Qed.

Lemma istream_read_failed (s : istream.t) (n : Z) :
  istream.failbit s = true ->
  istream.read s n = ([], istream.setstate_failbit s).
Proof.
  intros H. unfold istream.read, istream.good. rewrite H. reflexivity.
Qed.

Lemma ipv4_first_byte (bs : list byte) :
  nth 0 (rep_blit (repeat x00 60) 0 (firstn 20 bs)) x00 = nth 0 bs x00.
Proof.
  destruct bs as [|b bs]; [reflexivity|].
  rewrite rep_blit_0_nth by (simpl; lia). reflexivity.
Qed.

Lemma ipv4_decode_ok (bs : list byte) :
  let r := ipv4_decode bs in
  rep_at (ipv4_header.rep_ (snd r)) 0 = uchar (nth 0 bs x00) /\
  istream.ok (fst r) =
    (20 <=? Z.of_nat (length bs)) && (ipv4_header.version (snd r) =? 4)
    && (20 <=? ipv4_header.header_length (snd r))
    && (ipv4_header.header_length (snd r) <=? Z.of_nat (length bs)).
Proof.
  unfold ipv4_decode, ipv4_header.operator_shr.
  rewrite istream_read_fresh.
  change (Z.to_nat 20) with 20%nat.
  change (ipv4_header.rep_ ipv4_header.ctor) with (repeat x00 60).
  set (h1 := ipv4_header.mk (rep_blit (repeat x00 60) 0 (firstn 20 bs))).
  assert (H0 : rep_at (ipv4_header.rep_ h1) 0 = uchar (nth 0 bs x00)).
  { unfold rep_at, h1. cbn [ipv4_header.rep_]. f_equal. apply ipv4_first_byte. }
  assert (Hlen : length (ipv4_header.rep_ h1) = 60%nat).
  { unfold h1. cbn [ipv4_header.rep_]. rewrite rep_blit_0_length.
    - apply repeat_length.
    - rewrite length_firstn, repeat_length. lia. }
  assert (Hkeep : forall got,
            rep_at (rep_blit (ipv4_header.rep_ h1) 20 got) 0 = rep_at (ipv4_header.rep_ h1) 0).
  { intros got. unfold rep_at. f_equal. apply rep_blit_nth_before. lia. }
  assert (Hv : forall got, ipv4_header.version
                 (ipv4_header.mk (rep_blit (ipv4_header.rep_ h1) 20 got))
               = ipv4_header.version h1).
  { intros got. unfold ipv4_header.version. cbn [ipv4_header.rep_].
    rewrite Hkeep. reflexivity. }
  assert (Hl : forall got, ipv4_header.header_length
                 (ipv4_header.mk (rep_blit (ipv4_header.rep_ h1) 20 got))
               = ipv4_header.header_length h1).
  { intros got. unfold ipv4_header.header_length. cbn [ipv4_header.rep_].
    rewrite Hkeep. reflexivity. }
  pose proof (ipv4_header_length_range h1) as [Hhl _].
  unfold ipv4_header.options_length.
  replace (ipv4_header.header_length h1 - 20 >? 40) with false
    by (rewrite Z.gtb_ltb; symmetry; apply Z.ltb_ge; lia).
  rewrite orb_false_r.
  replace (ipv4_header.header_length h1 - 20 <? 0)
    with (negb (20 <=? ipv4_header.header_length h1))
    by (destruct (20 <=? ipv4_header.header_length h1) eqn:A;
        destruct (ipv4_header.header_length h1 - 20 <? 0) eqn:B; try reflexivity;
        [apply Z.leb_le in A; apply Z.ltb_lt in B
        |apply Z.leb_gt in A; apply Z.ltb_ge in B]; lia).
  destruct (Z.of_nat (length bs) <? 20) eqn:Eshort.
  - (* the fixed part is cut short *)
    apply Z.ltb_lt in Eshort.
    assert (E20 : (20 <=? Z.of_nat (length bs)) = false) by (apply Z.leb_gt; lia).
    destruct (20 <=? ipv4_header.header_length h1); cbn [negb].
    + rewrite istream_read_failed
        by (destruct (negb (ipv4_header.version h1 =? 4)); reflexivity).
      cbn [fst snd ipv4_header.rep_]. rewrite Hkeep, E20. split; [exact H0|].
      destruct (negb (ipv4_header.version h1 =? 4)); reflexivity.
    + cbn [fst snd]. rewrite E20. split; [exact H0|].
      destruct (negb (ipv4_header.version h1 =? 4)); reflexivity.
  - apply Z.ltb_ge in Eshort.
    assert (E20 : (20 <=? Z.of_nat (length bs)) = true) by (apply Z.leb_le; lia).
    destruct (20 <=? ipv4_header.header_length h1) eqn:Ehl; cbn [negb].
    + apply Z.leb_le in Ehl.
      destruct (ipv4_header.version h1 =? 4) eqn:Ever; cbn [negb].
      * (* version four: the options are read *)
        unfold istream.read, istream.good.
        cbn [istream.failbit istream.eofbit negb andb istream.data].
        rewrite length_firstn, length_skipn.
        destruct (Z.of_nat (Nat.min (Z.to_nat (ipv4_header.header_length h1 - 20))
                                    (length bs - 20))
                  <? ipv4_header.header_length h1 - 20) eqn:Eo;
          cbn [fst snd ipv4_header.rep_]; rewrite Hkeep, Hv, Hl, Ever, E20;
          (split; [exact H0|]);
          unfold istream.ok; cbn [istream.failbit negb andb].
        -- apply Z.ltb_lt in Eo. symmetry.
           replace (20 <=? ipv4_header.header_length h1) with true
             by (symmetry; apply Z.leb_le; lia).
           apply Z.leb_gt. lia.
        -- apply Z.ltb_ge in Eo. symmetry.
           replace (20 <=? ipv4_header.header_length h1) with true
             by (symmetry; apply Z.leb_le; lia).
           apply Z.leb_le. lia.
      * (* any other version *)
        rewrite istream_read_failed by reflexivity.
        cbn [fst snd ipv4_header.rep_]. rewrite Hkeep, Hv, Ever, E20.
        split; [exact H0|]. reflexivity.
    + cbn [fst snd]. rewrite E20, Ehl. split; [exact H0|].
      rewrite andb_false_r.
      destruct (negb (ipv4_header.version h1 =? 4)); reflexivity.
Qed.

Lemma ipv4_version_nibble (h : ipv4_header.t) :
  ipv4_header.version h = Z.land (Z.shiftr (rep_at (ipv4_header.rep_ h) 0) 4) 15.
Proof.
  unfold ipv4_header.version, to_uint8.
  pose proof (land_15_range (Z.shiftr (rep_at (ipv4_header.rep_ h) 0) 4)).
  apply Z.mod_small. lia.
Qed.

(** C10: [header_length()] is a multiple of four between 0 and 60 for every
    buffer, so the options length never exceeds 40 and the test
    [options_length > 40] of [operator>>] is never true; decoding a byte
    stream fails exactly when the version is not 4, the header length is
    below 20, or the stream is shorter than the fixed part or than the
    header length. *)
Theorem header_length_bounded_options_guard_dead (h : ipv4_header.t) (bs : list byte) :
  ipv4_header.header_length h mod 4 = 0 /\
  0 <= ipv4_header.header_length h <= 60 /\
  ipv4_header.options_length h <= 40 /\
  (ipv4_header.options_length h >? 40) = false /\
  (istream.ok (fst (ipv4_decode bs)) = false <->
     ipv4_header.version (snd (ipv4_decode bs)) <> 4 \/
     ipv4_header.header_length (snd (ipv4_decode bs)) < 20 \/
     Z.of_nat (length bs) < 20 \/
     Z.of_nat (length bs) < ipv4_header.header_length (snd (ipv4_decode bs))).
Proof.
  destruct (ipv4_header_length_range h) as [Hr Hm].
  split; [rewrite Hm, Z.mul_comm; apply Z.mod_mul; lia|].
  split; [exact Hr|].
  unfold ipv4_header.options_length.
  split; [lia|].
  split; [rewrite Z.gtb_ltb; apply Z.ltb_ge; lia|].
  destruct (ipv4_decode_ok bs) as [_ Hok]. rewrite Hok.
  rewrite !andb_false_iff, Z.leb_gt, Z.leb_gt, Z.leb_gt.
  rewrite <- not_true_iff_false, Z.eqb_eq. tauto.
Qed.

(** C4: decoding an IPv4 header from a byte stream fails exactly when the
    version nibble of its first byte is not 4, or the options length
    (header length minus 20) is outside 0..40, or the stream is shorter
    than the fixed part or than the header length; and a 20-byte stream
    that starts with the byte 0x45 decodes, the source address being the
    bytes at offsets 12 to 15 and the destination address those at 16 to
    19. *)
Theorem ipv4_decode_fails_iff_and_canonical (bs : list byte) :
  (ipv4_header.version (snd (ipv4_decode bs))
     = Z.land (Z.shiftr (uchar (nth 0 bs x00)) 4) 15 /\
   ipv4_header.options_length (snd (ipv4_decode bs))
     = 4 * Z.land (uchar (nth 0 bs x00)) 15 - 20 /\
   (istream.ok (fst (ipv4_decode bs)) = false <->
      ipv4_header.version (snd (ipv4_decode bs)) <> 4 \/
      ipv4_header.options_length (snd (ipv4_decode bs)) < 0 \/
      40 < ipv4_header.options_length (snd (ipv4_decode bs)) \/
      Z.of_nat (length bs) < 20 \/
      Z.of_nat (length bs) < 20 + ipv4_header.options_length (snd (ipv4_decode bs)))) /\
  (length bs = 20%nat -> nth 0 bs x00 = x45 ->
   istream.ok (fst (ipv4_decode bs)) = true /\
   ipv4_header.source_address (snd (ipv4_decode bs))
     = [nth 12 bs x00; nth 13 bs x00; nth 14 bs x00; nth 15 bs x00] /\
   ipv4_header.destination_address (snd (ipv4_decode bs))
     = [nth 16 bs x00; nth 17 bs x00; nth 18 bs x00; nth 19 bs x00]).
Proof.
  split.
  - destruct (ipv4_decode_ok bs) as [H0 Hok].
    destruct (ipv4_header_length_range (snd (ipv4_decode bs))) as [Hr Hm].
    unfold ipv4_header.options_length.
    split; [rewrite ipv4_version_nibble, H0; reflexivity|].
    split; [rewrite Hm, H0; reflexivity|].
    rewrite Hok, !andb_false_iff, Z.leb_gt, Z.leb_gt, Z.leb_gt.
    rewrite <- not_true_iff_false, Z.eqb_eq. lia.
  - intros Hlen Hb0.
    do 20 (destruct bs as [|? bs]; [discriminate Hlen|]).
    destruct bs; [|discriminate Hlen].
    cbn [nth] in Hb0. subst.
    repeat split.
Qed.

Lemma ipv4_decode_fails_iff_and_canonical_witness :
  length canonical_ipv4 = 20%nat /\ nth 0 canonical_ipv4 x00 = x45 /\
  istream.ok (fst (ipv4_decode canonical_ipv4)) = true /\
  ipv4_header.source_address (snd (ipv4_decode canonical_ipv4)) = [x0a; x00; x00; x01] /\
  ipv4_header.destination_address (snd (ipv4_decode canonical_ipv4)) = [x0a; x00; x00; x02].
Proof.
  split; [reflexivity|]. split; [reflexivity|].
  apply (proj2 (ipv4_decode_fails_iff_and_canonical canonical_ipv4)); reflexivity.
Defined.

(** ** Internet checksum *)

Lemma byte_pairs_ind (P : list byte -> Prop) :
  P [] -> (forall b, P [b]) ->
  (forall hi lo rest, P rest -> P (hi :: lo :: rest)) ->
  forall body, P body.
Proof.
  intros Hnil Hone Hstep body.
  enough (H : P body /\ forall b, P (b :: body)) by apply H.
  induction body as [|a body [IH1 IH2]].
  - split; [exact Hnil | exact Hone].
  - split; [apply IH2 | intros b; apply Hstep, IH1].
Qed.

Lemma lor_high_low (hi lo : Z) :
  0 <= lo < 256 -> Z.lor (Z.shiftl hi 8) lo = Z.shiftl hi 8 + lo.
Proof.
  intros Hlo.
  assert (H : Z.land (Z.shiftl hi 8) lo = 0).
  { apply Z.bits_inj'. intros n Hn.
    rewrite Z.land_spec, Z.bits_0.
    destruct (Z.lt_ge_cases n 8) as [Hlt|Hge].
    - rewrite Z.shiftl_spec_low by assumption. reflexivity.
    - destruct (Z.eq_dec lo 0) as [->|Hnz]; [rewrite Z.bits_0; apply andb_false_r|].
      rewrite (Z.bits_above_log2 lo n), andb_false_r; [reflexivity|lia|].
      apply Z.log2_lt_pow2; [lia|].
      apply Z.lt_le_trans with (2 ^ 8); [simpl; lia|].
      apply Z.pow_le_mono_r; lia. }
  rewrite (Z.add_nocarry_lxor _ _ H). symmetry. apply Z.lxor_lor, H.
Qed.

Lemma to_uint_add_idemp (a b : Z) : to_uint (to_uint a + b) = to_uint (a + b).
Proof. unfold to_uint. apply Z.add_mod_idemp_l. lia. Qed.

Lemma checksum_loop_sum (body : list byte) :
  forall sum, checksum_loop (to_uint sum) body
              = to_uint (sum + sum_words (body_words body)).
Proof.
  induction body as [|b|hi lo rest IH] using byte_pairs_ind; intros sum.
  - simpl. rewrite Z.add_0_r. reflexivity.
  - simpl. rewrite to_uint_add_idemp, Z.add_0_r. reflexivity.
  - cbn [checksum_loop body_words sum_words fold_right].
    rewrite !to_uint_add_idemp, IH.
    fold (sum_words (body_words rest)).
    rewrite lor_high_low by apply uchar_range.
    rewrite <- !Z.add_assoc. apply to_uint_add_idemp.
Qed.

Lemma body_words_sum_bound (body : list byte) :
  0 <= sum_words (body_words body)
    <= 65535 * ((Z.of_nat (length body) + 1) / 2).
Proof.
  induction body as [|b|hi lo rest IH] using byte_pairs_ind.
  - simpl. lia.
  - pose proof (uchar_range b). cbn [body_words sum_words fold_right length].
    rewrite Z.shiftl_mul_pow2 by lia. change ((Z.of_nat 1 + 1) / 2) with 1. lia.
  - pose proof (uchar_range hi). pose proof (uchar_range lo).
    cbn [body_words sum_words fold_right]. fold (sum_words (body_words rest)).
    rewrite lor_high_low by assumption.
    rewrite Z.shiftl_mul_pow2 by lia.
    replace ((Z.of_nat (length (hi :: lo :: rest)) + 1) / 2)
      with ((Z.of_nat (length rest) + 1) / 2 + 1).
    + lia.
    + cbn [length]. rewrite !Nat2Z.inj_succ.
      replace (Z.succ (Z.succ (Z.of_nat (length rest))) + 1)
        with (Z.of_nat (length rest) + 1 + 1 * 2) by lia.
      rewrite Z.div_add by lia. reflexivity.
Qed.

Lemma rep_store_nth_same (rep : list byte) (i : nat) (b : byte) :
  (i < length rep)%nat -> nth i (rep_store rep i b) x00 = b.
Proof.
  intros Hi. unfold rep_store.
  rewrite app_nth2 by (rewrite length_firstn; lia).
  rewrite length_firstn. replace (i - Nat.min i (length rep))%nat with 0%nat by lia.
  reflexivity.
Qed.

Lemma rep_store_nth_other (rep : list byte) (i j : nat) (b : byte) :
  (i < length rep)%nat -> i <> j -> nth j (rep_store rep i b) x00 = nth j rep x00.
Proof.
  intros Hi Hij. unfold rep_store.
  destruct (Nat.lt_ge_cases j i) as [Hlt|Hge].
  - rewrite app_nth1 by (rewrite length_firstn; lia).
    rewrite nth_firstn. apply Nat.ltb_lt in Hlt. rewrite Hlt. reflexivity.
  - rewrite app_nth2 by (rewrite length_firstn; lia).
    rewrite length_firstn. replace (Nat.min i (length rep)) with i by lia.
    destruct (j - i)%nat as [|k] eqn:E; [lia|].
    cbn [nth]. rewrite nth_skipn. f_equal. lia.
Qed.

Lemma rep_store_length (rep : list byte) (i : nat) (b : byte) :
  (i < length rep)%nat -> length (rep_store rep i b) = length rep.
Proof.
  intros Hi. unfold rep_store.
  rewrite length_app, length_firstn. cbn [length]. rewrite length_skipn. lia.
Qed.

Lemma split_ushort (n : Z) :
  0 <= n < 65536 ->
  0 <= Z.shiftr n 8 < 256 /\ 0 <= Z.land n 255 < 256 /\
  Z.shiftl (Z.shiftr n 8) 8 + Z.land n 255 = n.
Proof.
  intros Hn.
  rewrite Z.shiftr_div_pow2, Z.shiftl_mul_pow2 by lia.
  assert (E : Z.land n 255 = n mod 256) by (apply (Z.land_ones n 8); lia).
  rewrite E. change (2 ^ 8) with 256.
  pose proof (Z.mod_pos_bound n 256). pose proof (Z.div_mod n 256).
  assert (0 <= n / 256 < 256) by (split; [apply Z.div_pos | apply Z.div_lt_upper_bound]; lia).
  lia.
Qed.

Lemma icmp_decode_encode (h : icmp_header.t) (a b : nat) (n : Z) :
  (a < length (icmp_header.rep_ h))%nat -> (b < length (icmp_header.rep_ h))%nat ->
  a <> b -> 0 <= n < 65536 ->
  icmp_header.decode (icmp_header.encode h a b n) a b = n.
Proof.
  intros Ha Hb Hab Hn. destruct (split_ushort n Hn) as (Hhi & Hlo & Hsum).
  unfold icmp_header.decode, icmp_header.encode, rep_at. cbn [icmp_header.rep_].
  rewrite rep_store_nth_other, rep_store_nth_same; try assumption;
    try (rewrite rep_store_length; assumption); try congruence.
  rewrite rep_store_nth_same by (rewrite rep_store_length; assumption).
  rewrite !uchar_to_uchar by assumption.
  rewrite Hsum. unfold to_ushort. apply Z.mod_small. lia.
Qed.

Lemma icmp_encode_nth_other (h : icmp_header.t) (a b i : nat) (n : Z) :
  (a < length (icmp_header.rep_ h))%nat -> (b < length (icmp_header.rep_ h))%nat ->
  i <> a -> i <> b ->
  nth i (icmp_header.rep_ (icmp_header.encode h a b n)) x00 = nth i (icmp_header.rep_ h) x00.
Proof.
  intros Ha Hb Hia Hib. unfold icmp_header.encode. cbn [icmp_header.rep_].
  rewrite !rep_store_nth_other; try reflexivity; try congruence; try assumption.
  rewrite rep_store_length; assumption.
Qed.

Lemma icmp_decode_range (h : icmp_header.t) (a b : nat) :
  0 <= icmp_header.decode h a b < 65536.
Proof. unfold icmp_header.decode, to_ushort. apply Z.mod_pos_bound. lia. Qed.

Lemma to_ushort_to_uint (z : Z) : to_ushort (to_uint z) = Z.land z 65535.
Proof.
  unfold to_ushort, to_uint.
  rewrite Z.mod_mod_divide by (exists (2 ^ 16); reflexivity).
  symmetry. apply (Z.land_ones z 16). lia.
Qed.

(** The checksum the code stores, for every body: the specification's folds
    applied to the sum as the 32-bit accumulator holds it. *)
Lemma compute_checksum_closed (h : icmp_header.t) (body : list byte) :
  length (icmp_header.rep_ h) = 8%nat ->
  icmp_header.checksum (compute_checksum h body) =
    let sum := to_uint (Z.shiftl (icmp_header.type h) 8 + icmp_header.code h
                        + icmp_header.identifier h + icmp_header.sequence_number h
                        + sum_words (body_words body)) in
    let sum := Z.shiftr sum 16 + Z.land sum 65535 in
    let sum := sum + Z.shiftr sum 16 in
    Z.land (Z.lnot sum) 65535.
Proof.
  intros Hlen. unfold compute_checksum. rewrite checksum_loop_sum.
  set (s := to_uint (_ + sum_words (body_words body))). cbv zeta.
  assert (Hs : 0 <= s < 2 ^ 32) by (apply Z.mod_pos_bound; lia).
  assert (Hhi : 0 <= Z.shiftr s 16 < 65536).
  { rewrite Z.shiftr_div_pow2 by lia.
    split; [apply Z.div_pos | apply Z.div_lt_upper_bound]; lia. }
  assert (Hlo : 0 <= Z.land s 65535 < 65536).
  { assert (E : Z.land s 65535 = s mod 65536) by (apply (Z.land_ones s 16); lia).
    rewrite E. apply Z.mod_pos_bound. lia. }
  assert (E1 : to_uint (Z.shiftr s 16 + Z.land s 65535) = Z.shiftr s 16 + Z.land s 65535)
    by (apply Z.mod_small; lia).
  rewrite E1. set (f := Z.shiftr s 16 + Z.land s 65535).
  assert (Hf : 0 <= Z.shiftr f 16 < 2).
  { rewrite Z.shiftr_div_pow2 by lia.
    split; [apply Z.div_pos | apply Z.div_lt_upper_bound]; lia. }
  assert (E2 : to_uint (f + Z.shiftr f 16) = f + Z.shiftr f 16)
    by (apply Z.mod_small; lia).
  rewrite E2. unfold icmp_header.checksum, icmp_header.set_checksum.
  rewrite icmp_decode_encode; try (rewrite Hlen; lia); try lia.
  - apply to_ushort_to_uint.
  - unfold to_ushort. apply Z.mod_pos_bound. lia.
Qed.

Lemma compute_checksum_keeps (h : icmp_header.t) (body : list byte) (i : nat) :
  length (icmp_header.rep_ h) = 8%nat -> i <> 2%nat -> i <> 3%nat ->
  nth i (icmp_header.rep_ (compute_checksum h body)) x00 = nth i (icmp_header.rep_ h) x00.
Proof.
  intros Hlen H2 H3. unfold compute_checksum, icmp_header.set_checksum.
  apply icmp_encode_nth_other; try assumption; rewrite Hlen; lia.
Qed.

Lemma internet_checksum_no_wrap (h : icmp_header.t) (body : list byte) :
  length (icmp_header.rep_ h) = 8%nat ->
  Z.shiftl (icmp_header.type h) 8 + icmp_header.code h
    + icmp_header.identifier h + icmp_header.sequence_number h
    + sum_words (body_words body) < 2 ^ 32 ->
  icmp_header.checksum (compute_checksum h body) =
    internet_checksum (icmp_header.type h) (icmp_header.code h)
      (icmp_header.identifier h) (icmp_header.sequence_number h) body.
Proof.
  intros Hlen Hsum. rewrite compute_checksum_closed by assumption.
  unfold internet_checksum.
  pose proof (uchar_range (nth 0 (icmp_header.rep_ h) x00)) as Ht.
  pose proof (uchar_range (nth 1 (icmp_header.rep_ h) x00)) as Hc.
  pose proof (icmp_decode_range h 4 5) as Hi.
  pose proof (icmp_decode_range h 6 7) as Hq.
  pose proof (body_words_sum_bound body) as [Hb _].
  fold (rep_at (icmp_header.rep_ h) 0) in Ht. fold (icmp_header.type h) in Ht.
  fold (rep_at (icmp_header.rep_ h) 1) in Hc. fold (icmp_header.code h) in Hc.
  fold (icmp_header.identifier h) in Hi. fold (icmp_header.sequence_number h) in Hq.
  rewrite lor_high_low by assumption.
  assert (E : to_uint (Z.shiftl (icmp_header.type h) 8 + icmp_header.code h
                       + icmp_header.identifier h + icmp_header.sequence_number h
                       + sum_words (body_words body))
              = Z.shiftl (icmp_header.type h) 8 + icmp_header.code h
                + icmp_header.identifier h + icmp_header.sequence_number h
                + sum_words (body_words body)).
  { apply Z.mod_small. rewrite Z.shiftl_mul_pow2 in * by lia. lia. }
  rewrite E. reflexivity.
Qed.

Lemma repeat_ff_words (n : nat) :
  sum_words (body_words (repeat xff (2 * n))) = 65535 * Z.of_nat n.
Proof.
  induction n as [|n IH]; [reflexivity|].
  replace (2 * S n)%nat with (S (S (2 * n))) by lia.
  cbn [repeat body_words sum_words fold_right].
  fold (sum_words (body_words (repeat xff (2 * n)))). rewrite IH.
  change (Z.lor (Z.shiftl (uchar xff) 8) (uchar xff)) with 65535. lia.
Qed.

Lemma short_body_no_wrap (h : icmp_header.t) (body : list byte) :
  Z.of_nat (length body) <= 131068 ->
  Z.shiftl (icmp_header.type h) 8 + icmp_header.code h
    + icmp_header.identifier h + icmp_header.sequence_number h
    + sum_words (body_words body) < 2 ^ 32.
Proof.
  intros Hbody.
  pose proof (uchar_range (nth 0 (icmp_header.rep_ h) x00)) as Ht.
  pose proof (uchar_range (nth 1 (icmp_header.rep_ h) x00)) as Hc.
  pose proof (icmp_decode_range h 4 5) as Hi.
  pose proof (icmp_decode_range h 6 7) as Hq.
  pose proof (body_words_sum_bound body) as [_ Hb].
  unfold icmp_header.type, icmp_header.code, icmp_header.identifier,
    icmp_header.sequence_number, rep_at.
  rewrite Z.shiftl_mul_pow2 by lia.
  assert ((Z.of_nat (length body) + 1) / 2 <= 65534)
    by (apply Z.lt_succ_r, Z.div_lt_upper_bound; lia).
  change (2 ^ 8) with 256. change (2 ^ 32) with 4294967296. lia.
Qed.

Lemma compute_checksum_fields_kept (h : icmp_header.t) (body : list byte) :
  length (icmp_header.rep_ h) = 8%nat ->
  length (icmp_header.rep_ (compute_checksum h body)) = 8%nat /\
  icmp_header.type (compute_checksum h body) = icmp_header.type h /\
  icmp_header.code (compute_checksum h body) = icmp_header.code h /\
  icmp_header.identifier (compute_checksum h body) = icmp_header.identifier h /\
  icmp_header.sequence_number (compute_checksum h body) = icmp_header.sequence_number h.
Proof.
  intros Hlen. split.
  - unfold compute_checksum, icmp_header.set_checksum, icmp_header.encode.
    cbn [icmp_header.rep_].
    rewrite rep_store_length; rewrite rep_store_length; rewrite ?Hlen; lia.
  - unfold icmp_header.type, icmp_header.code, icmp_header.identifier,
      icmp_header.sequence_number, icmp_header.decode, rep_at.
    rewrite !compute_checksum_keeps by (assumption || lia).
    repeat split.
Qed.

(** C3, as the code has it: for a header of eight bytes and a body of at
    most 131068 bytes (so that the 32-bit accumulator cannot wrap),
    [compute_checksum] sets the checksum field to the Internet checksum of
    the specification: the sum of the word (type<<8 | code), the
    identifier, the sequence number and the big-endian body words (a last
    odd byte as a high byte), folded twice, complemented and cut to 16
    bits; the other fields are left as they were. *)
Theorem compute_checksum_is_internet_checksum (h : icmp_header.t) (body : list byte) :
  length (icmp_header.rep_ h) = 8%nat ->
  Z.of_nat (length body) <= 131068 ->
  icmp_header.checksum (compute_checksum h body) =
    internet_checksum (icmp_header.type h) (icmp_header.code h)
      (icmp_header.identifier h) (icmp_header.sequence_number h) body /\
  icmp_header.type (compute_checksum h body) = icmp_header.type h /\
  icmp_header.code (compute_checksum h body) = icmp_header.code h /\
  icmp_header.identifier (compute_checksum h body) = icmp_header.identifier h /\
  icmp_header.sequence_number (compute_checksum h body) = icmp_header.sequence_number h.
Proof.
  intros Hlen Hbody. split.
  - apply internet_checksum_no_wrap; [assumption|].
    apply short_body_no_wrap, Hbody.
  - apply compute_checksum_fields_kept, Hlen.
Qed.

Lemma compute_checksum_is_internet_checksum_witness :
  length (icmp_header.rep_ icmp_header.ctor) = 8%nat /\
  Z.of_nat (length body) <= 131068 /\
  icmp_header.checksum (compute_checksum icmp_header.ctor body) =
    internet_checksum (icmp_header.type icmp_header.ctor)
      (icmp_header.code icmp_header.ctor) (icmp_header.identifier icmp_header.ctor)
      (icmp_header.sequence_number icmp_header.ctor) body.
Proof.
  split; [reflexivity|]. split; [vm_compute; discriminate|].
  apply (compute_checksum_is_internet_checksum icmp_header.ctor body);
    [reflexivity | vm_compute; discriminate].
Defined.

(** C3, as stated, fails on a body long enough for the accumulator to
    wrap: 131076 bytes 0xff after an all-zero header. *)
Lemma compute_checksum_wraps_on_long_body :
  icmp_header.checksum (compute_checksum icmp_header.ctor long_body) <>
  internet_checksum (icmp_header.type icmp_header.ctor) (icmp_header.code icmp_header.ctor)
    (icmp_header.identifier icmp_header.ctor)
    (icmp_header.sequence_number icmp_header.ctor) long_body.
Proof.
  assert (E : sum_words (body_words long_body) = 4295032830).
  { unfold long_body.
    replace (Z.to_nat 131076) with (2 * Z.to_nat 65538)%nat by lia.
    rewrite repeat_ff_words, Z2Nat.id by lia. reflexivity. }
  rewrite compute_checksum_closed by reflexivity.
  unfold internet_checksum. rewrite E. vm_compute. discriminate.
Qed.

(** ** The receive handler *)

Ltac pinger_simpl :=
  cbn [socket_is_open receive_wait timer_expiry timer_wait time_sent_ reply_buffer_
       destination_ num_replies_ sequence_number_ count_ timer_interval_
       with_socket_is_open with_receive_wait with_timer with_time_sent_
       with_reply_buffer_ with_num_replies_ with_sequence_number_ with_settings
       start_receive after emitted raised obj clock wire fst snd] in *.

(** C2: the receive handler increments the reply counter exactly when both
    headers were extracted with the stream still good, the type is Echo
    Reply, the identifier is the process token and the sequence number is
    the current one; in every other case the counter stays, and in both
    cases the destination, sequence number, count, interval, send time,
    timer and socket are as before.  The receive is re-armed while the
    sequence number is below the count. *)
Theorem handle_receive_counts_exactly_matches
    (env : environment) (p : pinger) (received : list byte) :
  let r := decode_reply (reply_buffer_ p ++ received) in
  let matched :=
    istream.ok (fst r)
    && (icmp_header.type (snd r) =? icmp_header.echo_reply)
    && (icmp_header.identifier (snd r) =? get_identifier env)
    && (icmp_header.sequence_number (snd r) =? sequence_number_ p) in
  let p' := handle_receive env p received in
  num_replies_ p' = (if matched then to_size_t (num_replies_ p + 1) else num_replies_ p) /\
  (num_replies_ p' <> num_replies_ p <-> matched = true) /\
  destination_ p' = destination_ p /\
  sequence_number_ p' = sequence_number_ p /\
  count_ p' = count_ p /\
  timer_interval_ p' = timer_interval_ p /\
  time_sent_ p' = time_sent_ p /\
  timer_expiry p' = timer_expiry p /\
  timer_wait p' = timer_wait p /\
  socket_is_open p' = socket_is_open p /\
  receive_wait p' = (sequence_number_ p <? count_ p) || receive_wait p.
Proof.
  cbv zeta. unfold handle_receive, decode_reply, ipv4_decode, reply_matches.
  cbn [reply_buffer_ with_reply_buffer_].
  destruct (ipv4_header.operator_shr _ _) as [ins1 ip]. cbn [fst].
  destruct (icmp_header.operator_shr ins1 _) as [ins2 icmp]. cbn [fst snd sequence_number_].
  destruct (istream.ok ins2 && _ && _ && _) eqn:M;
    pinger_simpl;
    destruct (sequence_number_ p <? count_ p); pinger_simpl;
    repeat split; try reflexivity; try congruence;
    try (intros _; apply to_size_t_succ_neq).
Qed.


(** ** The send step *)

Lemma byte_pair_split (hi lo : byte) :
  let n := to_ushort (Z.shiftl (uchar hi) 8 + uchar lo) in
  to_uchar (Z.shiftr n 8) = hi /\ to_uchar (Z.land n 255) = lo.
Proof.
  pose proof (uchar_range hi) as Hh. pose proof (uchar_range lo) as Hl.
  cbv zeta. unfold to_ushort.
  rewrite Z.shiftl_mul_pow2 by lia. change (2 ^ 8) with 256.
  rewrite Z.mod_small by lia.
  rewrite Z.shiftr_div_pow2 by lia. change (2 ^ 8) with 256.
  assert (E : Z.land (uchar hi * 256 + uchar lo) 255 = (uchar hi * 256 + uchar lo) mod 256)
    by (apply (Z.land_ones _ 8); lia).
  rewrite E.
  replace ((uchar hi * 256 + uchar lo) / 256) with (uchar hi)
    by (apply Z.div_unique with (uchar lo); lia).
  replace ((uchar hi * 256 + uchar lo) mod 256) with (uchar lo)
    by (apply Z.mod_unique with (uchar hi); lia).
  split; apply to_uchar_uchar.
Qed.

(** The eight bytes of a header are its five fields, the 16-bit ones
    big-endian. *)
Lemma icmp_header_bytes (h : icmp_header.t) :
  length (icmp_header.rep_ h) = 8%nat ->
  icmp_header.operator_shl [] h =
    [to_uchar (icmp_header.type h); to_uchar (icmp_header.code h);
     to_uchar (Z.shiftr (icmp_header.checksum h) 8);
     to_uchar (Z.land (icmp_header.checksum h) 255);
     to_uchar (Z.shiftr (icmp_header.identifier h) 8);
     to_uchar (Z.land (icmp_header.identifier h) 255);
     to_uchar (Z.shiftr (icmp_header.sequence_number h) 8);
     to_uchar (Z.land (icmp_header.sequence_number h) 255)].
Proof.
  destruct h as [rep]. cbn [icmp_header.rep_]. intros Hlen.
  do 8 (destruct rep as [|? rep]; [discriminate Hlen|]).
  destruct rep; [|discriminate Hlen].
  unfold icmp_header.operator_shl, icmp_header.type, icmp_header.code,
    icmp_header.checksum, icmp_header.identifier, icmp_header.sequence_number,
    icmp_header.decode, rep_at.
  cbn [icmp_header.rep_ nth firstn app].
  rewrite !to_uchar_uchar.
  repeat match goal with
  | |- context [to_ushort (Z.shiftl (uchar ?hi) 8 + uchar ?lo)] =>
      let H1 := fresh in let H2 := fresh in
      destruct (byte_pair_split hi lo) as [H1 H2]; cbv zeta in H1, H2;
      rewrite H1, H2; clear H1 H2
  end.
  reflexivity.
Qed.

Lemma build_echo_request_fields (env : environment) (seq : Z) :
  0 <= seq < 65536 ->
  let r := build_echo_request env seq in
  length (icmp_header.rep_ r) = 8%nat /\
  icmp_header.type r = 8 /\ icmp_header.code r = 0 /\
  icmp_header.identifier r = get_identifier env /\
  icmp_header.sequence_number r = seq /\
  icmp_header.checksum r = internet_checksum 8 0 (get_identifier env) seq body.
Proof.
  intros Hseq. cbv zeta. unfold build_echo_request.
  set (h := icmp_header.set_sequence_number _ seq).
  assert (Hid : 0 <= get_identifier env < 65536)
    by (unfold get_identifier, to_ushort; apply Z.mod_pos_bound; lia).
  destruct (split_ushort _ Hid) as (Hi1 & Hi2 & Hi3).
  destruct (split_ushort _ Hseq) as (Hs1 & Hs2 & Hs3).
  assert (Hrep : icmp_header.rep_ h =
            [x08; x00; x00; x00;
             to_uchar (Z.shiftr (get_identifier env) 8);
             to_uchar (Z.land (get_identifier env) 255);
             to_uchar (Z.shiftr seq 8); to_uchar (Z.land seq 255)]).
  { unfold h, icmp_header.set_sequence_number, icmp_header.set_identifier,
      icmp_header.set_code, icmp_header.set_type, icmp_header.encode, rep_store.
    cbn [icmp_header.rep_ icmp_header.ctor repeat firstn skipn app].
    replace (to_ushort (get_identifier env)) with (get_identifier env)
      by (symmetry; apply Z.mod_small; lia).
    replace (to_ushort seq) with seq by (symmetry; apply Z.mod_small; lia).
    reflexivity. }
  assert (Hlen : length (icmp_header.rep_ h) = 8%nat) by (rewrite Hrep; reflexivity).
  assert (Ht : icmp_header.type h = 8) by (unfold icmp_header.type; rewrite Hrep; reflexivity).
  assert (Hc : icmp_header.code h = 0) by (unfold icmp_header.code; rewrite Hrep; reflexivity).
  assert (Hi : icmp_header.identifier h = get_identifier env).
  { unfold icmp_header.identifier, icmp_header.decode, rep_at. rewrite Hrep. cbn [nth].
    rewrite !uchar_to_uchar by assumption. rewrite Hi3.
    unfold to_ushort. apply Z.mod_small. lia. }
  assert (Hq : icmp_header.sequence_number h = seq).
  { unfold icmp_header.sequence_number, icmp_header.decode, rep_at. rewrite Hrep. cbn [nth].
    rewrite !uchar_to_uchar by assumption. rewrite Hs3.
    unfold to_ushort. apply Z.mod_small. lia. }
  assert (Hb : Z.of_nat (length body) <= 131068) by (vm_compute; discriminate).
  destruct (compute_checksum_fields_kept h body Hlen) as (El & Et & Ec & Ei & Eq).
  rewrite internet_checksum_no_wrap by (assumption || apply short_body_no_wrap, Hb).
  rewrite El, Et, Ec, Ei, Eq, Ht, Hc, Hi, Hq.
  repeat split.
Qed.

(** C8: a send step taken with the sequence number below the count
    transmits, to the destination, the eight header bytes type 8, code 0,
    checksum, identifier (the process token) and the incremented sequence
    number, the 16-bit fields big-endian, the checksum being the Internet
    checksum of these fields and the body, followed by the 36 bytes
    0123456789ABCDEFGHIJKLMNOPQRSTUVWXYZ. *)
Theorem start_send_transmits_echo_request (env : environment) (now : Z) (p : pinger) :
  0 <= sequence_number_ p < count_ p -> count_ p <= 255 ->
  send_to_ok env (sequence_number_ p + 1) = true ->
  let seq := sequence_number_ p + 1 in
  let id := get_identifier env in
  let ck := internet_checksum 8 0 id seq body in
  sequence_number_ (after (start_send env now p)) = seq /\
  raised (start_send env now p) = None /\
  emitted (start_send env now p) =
    [mk_packet now (destination_ p)
       ([x08; x00; to_uchar (Z.shiftr ck 8); to_uchar (Z.land ck 255);
         to_uchar (Z.shiftr id 8); to_uchar (Z.land id 255);
         to_uchar (Z.shiftr seq 8); to_uchar (Z.land seq 255)] ++ body)] /\
  body = String.list_byte_of_string "0123456789ABCDEFGHIJKLMNOPQRSTUVWXYZ"%string /\
  length body = 36%nat.
Proof.
  intros Hseq Hcount Hsend. cbv zeta. unfold start_send.
  replace (sequence_number_ p >=? count_ p) with false
    by (symmetry; rewrite Z.geb_leb; apply Z.leb_gt; lia).
  pinger_simpl.
  replace (to_uint8 (sequence_number_ p + 1)) with (sequence_number_ p + 1)
    by (symmetry; apply Z.mod_small; lia).
  rewrite Hsend. pinger_simpl.
  destruct (build_echo_request_fields env (sequence_number_ p + 1) ltac:(lia))
    as (Hlen & Ht & Hc & Hi & Hq & Hk).
  rewrite (icmp_header_bytes _ Hlen), Ht, Hc, Hi, Hq, Hk.
  repeat split.
Qed.

Lemma start_send_transmits_echo_request_witness :
  0 <= sequence_number_ (with_settings 1 2 1000 pinger_ctor)
    < count_ (with_settings 1 2 1000 pinger_ctor) /\
  count_ (with_settings 1 2 1000 pinger_ctor) <= 255 /\
  send_to_ok sample_env (sequence_number_ (with_settings 1 2 1000 pinger_ctor) + 1) = true /\
  emitted (start_send sample_env 0 (with_settings 1 2 1000 pinger_ctor)) =
    [mk_packet 0 1 ([x08; x00; xf3; xc6; x12; x34; x00; x01] ++ body)].
Proof.
  split; [vm_compute; split; [discriminate | reflexivity]|].
  split; [vm_compute; discriminate|]. split; [reflexivity|].
  destruct (start_send_transmits_echo_request sample_env 0
              (with_settings 1 2 1000 pinger_ctor))
    as (_ & _ & E & _); [vm_compute; split; [discriminate | reflexivity]
                        | vm_compute; discriminate | reflexivity |].
  rewrite E. reflexivity.
Defined.

(** ** The event loop *)

Local Opaque build_echo_request.

(** The receive handler touches the reply counter, the buffer and the
    receive wait only. *)
Lemma handle_receive_frame (env : environment) (p : pinger) (received : list byte) :
  let p' := handle_receive env p received in
  destination_ p' = destination_ p /\
  sequence_number_ p' = sequence_number_ p /\
  count_ p' = count_ p /\
  timer_interval_ p' = timer_interval_ p /\
  time_sent_ p' = time_sent_ p /\
  timer_expiry p' = timer_expiry p /\
  timer_wait p' = timer_wait p /\
  socket_is_open p' = socket_is_open p /\
  receive_wait p' = (sequence_number_ p <? count_ p) || receive_wait p.
Proof.
  cbv zeta. unfold handle_receive.
  destruct (ipv4_header.operator_shr _ _) as [ins1 ip].
  destruct (icmp_header.operator_shr ins1 _) as [ins2 icmp].
  destruct (reply_matches _ _ _ _); pinger_simpl;
    destruct (sequence_number_ p <? count_ p); pinger_simpl;
    repeat split; reflexivity.
Qed.

Lemma cancelled_receive_frame (env : environment) (p : pinger) :
  let p' := cancelled_receive env p in
  sequence_number_ p' = sequence_number_ p /\ count_ p' = count_ p /\
  timer_wait p' = timer_wait p /\ timer_expiry p' = timer_expiry p /\
  time_sent_ p' = time_sent_ p /\ timer_interval_ p' = timer_interval_ p /\
  socket_is_open p' = socket_is_open p.
Proof.
  cbv zeta. unfold cancelled_receive.
  destruct (negb (socket_is_open p) && receive_wait p).
  - destruct (handle_receive_frame env (with_receive_wait false p) [])
      as (_ & Hs & Hc & Hi & Ht & He & Hw & Ho & _).
    pinger_simpl. repeat split; assumption.
  - repeat split.
Qed.

Lemma start_send_count (env : environment) (now : Z) (p : pinger) :
  count_ (after (start_send env now p)) = count_ p /\
  num_replies_ (after (start_send env now p)) = num_replies_ p.
Proof.
  unfold start_send.
  destruct (sequence_number_ p >=? count_ p); [split; reflexivity|].
  pinger_simpl. destruct (send_to_ok env _); split; reflexivity.
Qed.

(** No handler changes [count_]. *)
Lemma dispatch_count (env : environment) (ev : event) (l l' : loop) (x : option exception) :
  dispatch env ev l = Some (l', x) -> count_ (obj l') = count_ (obj l).
Proof.
  unfold dispatch. destruct ev.
  - intros [= <- _]. reflexivity.
  - destruct (timer_wait (obj l)) as [h|]; [|discriminate].
    destruct (timer_expiry (obj l) <=? clock l); [|discriminate].
    destruct h.
    + intros [= <- _]. pinger_simpl.
      destruct (cancelled_receive_frame env
                  (handle_timeout (with_timer (timer_expiry (obj l)) None (obj l))))
        as (_ & Hc & _).
      rewrite Hc. unfold handle_timeout. pinger_simpl.
      destruct (sequence_number_ (obj l) >=? count_ (obj l)); reflexivity.
    + intros [= <- _]. pinger_simpl.
      rewrite (proj1 (start_send_count _ _ _)). reflexivity.
  - destruct (receive_wait (obj l) && socket_is_open (obj l)); [|discriminate].
    intros [= <- _]. pinger_simpl.
    destruct (handle_receive_frame env (with_receive_wait false (obj l)) (bytes_transferred datagram))
      as (_ & _ & Hc & _).
    rewrite Hc. reflexivity.
  - destruct (receive_wait (obj l) && socket_is_open (obj l)); [|discriminate].
    intros [= <- _]. pinger_simpl.
    destruct (handle_receive_frame env (with_receive_wait false (obj l)) [])
      as (_ & _ & Hc & _).
    rewrite Hc. reflexivity.
Qed.

Lemma run_count (env : environment) (evs : list event) :
  forall l l' x, run env evs l = Some (l', x) -> count_ (obj l') = count_ (obj l).
Proof.
  induction evs as [|ev evs IH]; intros l l' x; cbn [run].
  - destruct (idle (obj l)); [intros [= <- _]; reflexivity | discriminate].
  - destruct (idle (obj l)); [intros [= <- _]; reflexivity|].
    destruct (dispatch env ev l) as [[l1 [e|]]|] eqn:D; [| |discriminate].
    + intros [= <- _]. eapply dispatch_count, D.
    + intros H. rewrite (IH _ _ _ H). eapply dispatch_count, D.
Qed.

(** More events do not change a run that has ended. *)
Lemma run_app (env : environment) (evs more : list event) :
  forall l r, run env evs l = Some r -> run env (evs ++ more) l = Some r.
Proof.
  induction evs as [|ev evs IH]; intros l r; cbn [run app].
  - destruct (idle (obj l)) eqn:I; [|discriminate].
    intros H. destruct more; cbn [run]; rewrite I; exact H.
  - destruct (idle (obj l)); [trivial|].
    destruct (dispatch env ev l) as [[l1 [e|]]|]; [trivial| |discriminate].
    apply IH.
Qed.

Lemma dispatch_inv (env : environment) (c : Z) (ev : event) (l l' : loop) :
  c <= 255 -> run_inv c l -> dispatch env ev l = Some (l', None) -> run_inv c l'.
Proof.
  intros Hc (Hcount & Hseq & Hwire & Hnone & Hnext). unfold dispatch.
  destruct ev.
  - intros [= <-]. unfold run_inv. pinger_simpl. repeat split; assumption || lia.
  - destruct (timer_wait (obj l)) as [h|] eqn:W; [|discriminate].
    destruct (timer_expiry (obj l) <=? clock l); [|discriminate].
    destruct h.
    + intros [= <-]. unfold run_inv. pinger_simpl.
      destruct (cancelled_receive_frame env
                  (handle_timeout (with_timer (timer_expiry (obj l)) None (obj l))))
        as (Es & Ec & Ew & _).
      rewrite Es, Ec, Ew. unfold handle_timeout. pinger_simpl.
      destruct (sequence_number_ (obj l) >=? count_ (obj l)) eqn:G; pinger_simpl.
      * rewrite Z.geb_leb in G. apply Z.leb_le in G.
        repeat split; try assumption; try lia; discriminate.
      * rewrite Z.geb_leb in G. apply Z.leb_gt in G.
        repeat split; try assumption; try lia; discriminate.
    + specialize (Hnext eq_refl). unfold start_send. pinger_simpl.
      replace (sequence_number_ (obj l) >=? count_ (obj l)) with false
        by (symmetry; rewrite Z.geb_leb; apply Z.leb_gt; lia).
      pinger_simpl.
      replace (to_uint8 (sequence_number_ (obj l) + 1)) with (sequence_number_ (obj l) + 1)
        by (symmetry; apply Z.mod_small; lia).
      destruct (send_to_ok env _); pinger_simpl; [|discriminate].
      intros [= <-]. unfold run_inv. pinger_simpl.
      rewrite length_app. cbn [length].
      repeat split; try assumption; try lia; discriminate.
  - destruct (receive_wait (obj l) && socket_is_open (obj l)); [|discriminate].
    intros [= <-]. unfold run_inv. pinger_simpl.
    destruct (handle_receive_frame env (with_receive_wait false (obj l)) (bytes_transferred datagram))
      as (_ & Es & Ec & _ & _ & _ & Ew & _).
    rewrite Es, Ec, Ew. pinger_simpl. repeat split; assumption || lia.
  - destruct (receive_wait (obj l) && socket_is_open (obj l)); [|discriminate].
    intros [= <-]. unfold run_inv. pinger_simpl.
    destruct (handle_receive_frame env (with_receive_wait false (obj l)) [])
      as (_ & Es & Ec & _ & _ & _ & Ew & _).
    rewrite Es, Ec, Ew. pinger_simpl. repeat split; assumption || lia.
Qed.

Lemma run_inv_end (env : environment) (c : Z) (evs : list event) :
  c <= 255 ->
  forall l l', run_inv c l -> run env evs l = Some (l', None) ->
  run_inv c l' /\ idle (obj l') = true.
Proof.
  intros Hc. induction evs as [|ev evs IH]; intros l l' Hinv; cbn [run].
  - destruct (idle (obj l)) eqn:I; [|discriminate].
    intros [= <-]. split; assumption.
  - destruct (idle (obj l)) eqn:I; [intros [= <-]; split; assumption|].
    destruct (dispatch env ev l) as [[l1 [e|]]|] eqn:D; [discriminate| |discriminate].
    apply IH. eapply dispatch_inv; eassumption.
Qed.

(** ** The run *)

Lemma clamp_is_max (count : Z) : (if count <? 2 then 2 else count) = Z.max count 2.
Proof. destruct (count <? 2) eqn:E; [apply Z.ltb_lt in E | apply Z.ltb_ge in E]; lia. Qed.

Lemma ping_session_clamped (env : environment) (evs : list event) (address count ms : Z) :
  ping_session env evs address count ms = ping_session env evs address (Z.max count 2) ms.
Proof.
  unfold ping_session. rewrite !clamp_is_max.
  replace (Z.max (Z.max count 2) 2) with (Z.max count 2) by lia. reflexivity.
Qed.

(** The first send of [ping]. *)
Lemma first_send (env : environment) (address c ms : Z) :
  2 <= c ->
  let e := start_send env 0 (with_settings address c ms pinger_ctor) in
  count_ (after e) = c /\ sequence_number_ (after e) = 1 /\
  num_replies_ (after e) = 0 /\
  (send_to_ok env 1 = true ->
     raised e = None /\ length (emitted e) = 1%nat /\
     timer_wait (after e) = Some handle_timeout_cb) /\
  (send_to_ok env 1 = false -> raised e = Some system_error).
Proof.
  intros Hc. cbv zeta. unfold start_send, pinger_ctor. pinger_simpl.
  replace (0 >=? c) with false by (symmetry; rewrite Z.geb_leb; apply Z.leb_gt; lia).
  change (to_uint8 (0 + 1)) with 1.
  destruct (send_to_ok env 1); pinger_simpl;
    repeat split; try reflexivity; try discriminate; intros; discriminate.
Qed.

Lemma ping_session_inv (env : environment) (evs : list event) (address count ms : Z)
    (l : loop) (x : option exception) :
  count <= 255 ->
  ping_session env evs address count ms = Some (l, x) ->
  count_ (obj l) = Z.max count 2 /\
  (x = None ->
   sequence_number_ (obj l) = Z.max count 2 /\
   Z.of_nat (length (wire l)) = Z.max count 2).
Proof.
  intros Hc. unfold ping_session. rewrite clamp_is_max.
  destruct (first_send env address (Z.max count 2) ms ltac:(lia))
    as (Ecount & Eseq & _ & Hok & Hfail).
  destruct (send_to_ok env 1) eqn:S.
  - destruct (Hok eq_refl) as (Er & El & Et). rewrite Er. intros Hrun.
    assert (Hinv : run_inv (Z.max count 2)
              (mk_loop (start_receive (after (start_send env 0
                 (with_settings address (Z.max count 2) ms pinger_ctor)))) 0
                 (emitted (start_send env 0
                 (with_settings address (Z.max count 2) ms pinger_ctor))))).
    { unfold run_inv. pinger_simpl. rewrite Ecount, Eseq, El, Et.
      repeat split; try lia; discriminate. }
    split.
    + rewrite (run_count _ _ _ _ _ Hrun). pinger_simpl. exact Ecount.
    + intros ->. destruct (run_inv_end env (Z.max count 2) evs ltac:(lia) _ _ Hinv Hrun)
        as ((_ & _ & Hw & Hn & _) & Hidle).
      unfold idle in Hidle. apply andb_prop in Hidle as [_ Hidle].
      destruct (timer_wait (obj l)); [discriminate|].
      specialize (Hn eq_refl). lia.
  - rewrite (Hfail eq_refl). intros [= <- <-]. pinger_simpl.
    split; [exact Ecount | discriminate].
Qed.

Lemma handle_receive_num_replies (env : environment) (p : pinger) (received : list byte) :
  num_replies_ (handle_receive env p received) =
    if reply_matched env p (reply_buffer_ p ++ received)
    then to_size_t (num_replies_ p + 1) else num_replies_ p.
Proof.
  unfold handle_receive, reply_matched, decode_reply, ipv4_decode, reply_matches.
  pinger_simpl.
  destruct (ipv4_header.operator_shr _ _) as [ins1 ip]. cbn [fst].
  destruct (icmp_header.operator_shr ins1 _) as [ins2 icmp]. pinger_simpl.
  destruct (istream.ok ins2 && _ && _ && _); pinger_simpl;
    destruct (sequence_number_ p <? count_ p); reflexivity.
Qed.

Lemma handle_receive_buffer (env : environment) (p : pinger) (received : list byte) :
  sequence_number_ p < count_ p ->
  reply_buffer_ (handle_receive env p received) = [].
Proof.
  intros H. unfold handle_receive. pinger_simpl.
  destruct (ipv4_header.operator_shr _ _) as [ins1 ip].
  destruct (icmp_header.operator_shr ins1 _) as [ins2 icmp].
  destruct (reply_matches _ _ _ _); pinger_simpl;
    (replace (sequence_number_ p <? count_ p) with true
       by (symmetry; apply Z.ltb_lt; exact H)); reflexivity.
Qed.

Lemma dispatch_receive (env : environment) (d : list byte) (l : loop) :
  receive_wait (obj l) = true -> socket_is_open (obj l) = true ->
  dispatch env (Receive d) l =
    Some (mk_loop (handle_receive env (with_receive_wait false (obj l)) (bytes_transferred d))
                  (clock l) (wire l), None).
Proof. intros Hw Ho. unfold dispatch. rewrite Hw, Ho. reflexivity. Qed.


(** C7: [ping] with a count behaves as with max(count, 2), in particular
    with 1 as with 2; in the state the run ends in, [count_] is
    max(count, 2) (the count itself when it is at least 2), a run that ends
    without a fault has sent exactly that many probes, and the verdict
    compares against half of it. *)
Theorem ping_clamps_count (env : environment) (evs : list event) (address count ms : Z) :
  ping env evs address count ms = ping env evs address (Z.max count 2) ms /\
  ping env evs address 1 ms = ping env evs address 2 ms /\
  (forall l x, count <= 255 ->
     ping_session env evs address count ms = Some (l, x) ->
     count_ (obj l) = Z.max count 2 /\
     (2 <= count -> count_ (obj l) = count) /\
     (x = None -> sequence_number_ (obj l) = Z.max count 2 /\
                  Z.of_nat (length (wire l)) = Z.max count 2) /\
     (socket_opens env = true ->
      ping env evs address count ms =
        Some (returns (to_uint8 (num_replies_ (obj l)) >? Z.quot (Z.max count 2) 2)))).
Proof.
  split; [unfold ping; rewrite ping_session_clamped; reflexivity|].
  split; [unfold ping; rewrite (ping_session_clamped _ _ _ 1); reflexivity|].
  intros l x Hc Hs.
  destruct (ping_session_inv env evs address count ms l x Hc Hs) as [Ecount Hend].
  split; [exact Ecount|]. split; [lia|]. split; [exact Hend|].
  intros Ho. unfold ping. rewrite Ho, Hs. unfold verdict. rewrite Ecount. reflexivity.
Qed.

Lemma ping_clamps_count_witness :
  1 <= 255 /\
  ping_session sample_env quiet_events 1 1 1000 =
  ping_session sample_env quiet_events 1 2 1000 /\
  option_map (fun r => count_ (obj (fst r))) (ping_session sample_env quiet_events 1 1 1000)
  = Some 2.
Proof.
  split; [lia|]. split; [vm_compute; reflexivity|].
  destruct (ping_session sample_env quiet_events 1 1 1000) as [[l x]|] eqn:E;
    [|vm_compute in E; discriminate E].
  cbn [option_map fst].
  rewrite (proj1 (proj2 (proj2 (ping_clamps_count sample_env quiet_events 1 1 1000))
                   l x ltac:(lia) E)).
  reflexivity.
Defined.

(** C1, on a run the code can meet: with count 2, 256 matching replies to
    the first probe leave the reply count at 256, which is more than 2/2,
    and yet [ping] returns false, because the count is cut to 8 bits
    before the comparison. *)
Theorem verdict_truncates_reply_count :
  option_map (fun r => (num_replies_ (obj (fst r)), count_ (obj (fst r)), snd r))
    (ping_session sample_env flood_events 1 2 1000) = Some (256, 2, None) /\
  (256 >? Z.quot 2 2) = true /\
  ping sample_env flood_events 1 2 1000 = Some (returns false).
Proof. vm_compute. repeat split. Qed.

Lemma verdict_is_majority_below_256 (p : pinger) :
  0 <= num_replies_ p < 256 ->
  (verdict p = true <-> num_replies_ p > Z.quot (count_ p) 2).
Proof.
  intros H. unfold verdict, to_uint8. rewrite Z.mod_small by (simpl; lia).
  rewrite Z.gtb_ltb, Z.ltb_lt. lia.
Qed.

(** C9: the receive handler keeps no record of what it counted: a matching
    datagram delivered twice in a row is counted twice; and there is a run
    with count 2 in which three replies, all to probe 1, give a reply count
    of 3 with 2 probes sent and the verdict true, although one probe out of
    two was answered. *)
Theorem receive_counts_duplicates :
  (forall env l d,
     receive_wait (obj l) = true -> socket_is_open (obj l) = true ->
     reply_buffer_ (obj l) = [] ->
     sequence_number_ (obj l) < count_ (obj l) ->
     reply_matched env (obj l) (bytes_transferred d) = true ->
     exists l2,
       play env [Receive d; Receive d] l = Some (l2, None) /\
       num_replies_ (obj l2) = to_size_t (to_size_t (num_replies_ (obj l) + 1) + 1) /\
       wire l2 = wire l) /\
  (option_map (fun r => (num_replies_ (obj (fst r)), length (wire (fst r)), snd r))
     (ping_session sample_env triple_events 1 2 1000) = Some (3, 2%nat, None) /\
   ping sample_env triple_events 1 2 1000 = Some (returns true) /\
   Forall (fun ev => match ev with
                     | Receive d => echo_reply_seq d = Some 1
                     | _ => True
                     end) triple_events /\
   (1 >? Z.quot 2 2) = false).
Proof.
  split.
  - intros env l d Hw Ho Hb Hs Hm.
    cbn [play]. rewrite (dispatch_receive env d l Hw Ho).
    set (p1 := handle_receive env (with_receive_wait false (obj l)) (bytes_transferred d)).
    destruct (handle_receive_frame env (with_receive_wait false (obj l)) (bytes_transferred d))
      as (_ & Es & Ec & _ & _ & _ & _ & Eo & Ew).
    fold p1 in Es, Ec, Eo, Ew. pinger_simpl.
    assert (Hlt : (sequence_number_ (obj l) <? count_ (obj l)) = true) by (apply Z.ltb_lt, Hs).
    rewrite Hlt in Ew. cbn [orb] in Ew.
    assert (E1 : num_replies_ p1 = to_size_t (num_replies_ (obj l) + 1)).
    { unfold p1. rewrite handle_receive_num_replies. pinger_simpl. rewrite Hb. cbn [app].
      unfold reply_matched in *. pinger_simpl. rewrite Hm. reflexivity. }
    assert (Hb1 : reply_buffer_ p1 = []) by (apply handle_receive_buffer; exact Hs).
    rewrite (dispatch_receive env d (mk_loop p1 (clock l) (wire l))) by (pinger_simpl; congruence).
    pinger_simpl. eexists. split; [reflexivity|]. pinger_simpl. split; [|reflexivity].
    rewrite handle_receive_num_replies. pinger_simpl. rewrite Hb1. cbn [app].
    unfold reply_matched in *. pinger_simpl. rewrite Es. rewrite Hm, E1. reflexivity.
  - split; [vm_compute; reflexivity|]. split; [vm_compute; reflexivity|].
    split; [|reflexivity].
    unfold triple_events, quiet_events. cbn [repeat app].
    repeat (constructor; [first [exact I | vm_compute; reflexivity]|]). constructor.
Qed.

Lemma receive_counts_duplicates_witness :
  receive_wait (obj (ping_started sample_env 1 2 1000)) = true /\
  socket_is_open (obj (ping_started sample_env 1 2 1000)) = true /\
  reply_buffer_ (obj (ping_started sample_env 1 2 1000)) = [] /\
  sequence_number_ (obj (ping_started sample_env 1 2 1000))
    < count_ (obj (ping_started sample_env 1 2 1000)) /\
  reply_matched sample_env (obj (ping_started sample_env 1 2 1000))
    (bytes_transferred (echo_reply_datagram 4660 1)) = true /\
  exists l2,
    play sample_env [Receive (echo_reply_datagram 4660 1); Receive (echo_reply_datagram 4660 1)]
      (ping_started sample_env 1 2 1000) = Some (l2, None) /\
    num_replies_ (obj l2) = 2.
Proof.
  assert (H1 : receive_wait (obj (ping_started sample_env 1 2 1000)) = true)
    by (vm_compute; reflexivity).
  assert (H2 : socket_is_open (obj (ping_started sample_env 1 2 1000)) = true)
    by (vm_compute; reflexivity).
  assert (H3 : reply_buffer_ (obj (ping_started sample_env 1 2 1000)) = [])
    by (vm_compute; reflexivity).
  assert (H4 : sequence_number_ (obj (ping_started sample_env 1 2 1000))
               < count_ (obj (ping_started sample_env 1 2 1000)))
    by (vm_compute; reflexivity).
  assert (H5 : reply_matched sample_env (obj (ping_started sample_env 1 2 1000))
                 (bytes_transferred (echo_reply_datagram 4660 1)) = true)
    by (vm_compute; reflexivity).
  repeat (split; [assumption|]).
  destruct (proj1 receive_counts_duplicates sample_env (ping_started sample_env 1 2 1000)
              (echo_reply_datagram 4660 1) H1 H2 H3 H4 H5) as (l2 & Hp & Hn & _).
  exists l2. split; [exact Hp|]. rewrite Hn. vm_compute. reflexivity.
Defined.

(** Once no operation is outstanding, no event but the passing of time can
    happen, and nothing more is sent. *)
Lemma idle_play (env : environment) (evs : list event) :
  forall l l' x, idle (obj l) = true -> play env evs l = Some (l', x) ->
  x = None /\ obj l' = obj l /\ wire l' = wire l.
Proof.
  induction evs as [|ev evs IH]; intros l l' x Hidle; cbn [play].
  - intros [= <- <-]. repeat split.
  - unfold idle in Hidle. apply andb_prop in Hidle as [Hr Ht].
    destruct (timer_wait (obj l)) eqn:W; [discriminate|].
    apply negb_true_iff in Hr.
    destruct ev; unfold dispatch; rewrite ?W, ?Hr; cbn [andb]; try discriminate.
    intros H. apply IH in H.
    + pinger_simpl. exact H.
    + unfold idle. pinger_simpl. rewrite W, Hr. reflexivity.
Qed.

(** C5, as stated, fails: with an interval of 1000 ms the timeout check of
    the first probe runs at time 1000 and re-arms the timer to the deadline
    that has just passed; the wait completes at once and the second probe
    is sent at time 1000. *)
Lemma rearmed_timer_is_already_due :
  option_map (fun r => (clock (fst r), map sent_at (wire (fst r))))
    (play sample_env [TimerExpires] timeout_due) = Some (1000, [0]) /\
  option_map (fun r => (clock (fst r), map sent_at (wire (fst r))))
    (play sample_env [TimerExpires; TimerExpires] timeout_due) = Some (1000, [0; 1000]) /\
  ~ full_interval_after_timeout_check.
Proof.
  split; [vm_compute; reflexivity|]. split; [vm_compute; reflexivity|].
  intros H.
  let r := eval vm_compute in (dispatch sample_env TimerExpires timeout_due) in
  lazymatch r with
  | Some (?l1, None) =>
      let r2 := eval vm_compute in (play sample_env [TimerExpires] l1) in
      lazymatch r2 with
      | Some (?l2, None) =>
          let w := eval vm_compute in (nth 1 (wire l2) (mk_packet 0 0 [])) in
          pose proof (H sample_env timeout_due l1 [TimerExpires] l2 w) as H'
      end
  end.
  assert (Hle : ~ (clock timeout_due + timer_interval_ (obj timeout_due) <= 1000))
    by (vm_compute; intros C; apply C; reflexivity).
  apply Hle, H'.
  - vm_compute; reflexivity.
  - vm_compute; reflexivity.
  - vm_compute; reflexivity.
  - right. left. reflexivity.
  - intros [E|[]]. vm_compute in E. discriminate E.
Qed.

(** C5, as the code has it: when the timeout handler runs, no datagram is
    sent by it; with the sequence number at the count or above it closes
    the socket, nothing is left outstanding and nothing is sent later;
    below the count it re-arms the timer to the deadline of the last send
    (send time plus interval), which has passed already, so the wait for
    the next send step is due at once and the send step runs on that
    completion. *)
Theorem timeout_closes_or_rearms_same_deadline (env : environment) (l : loop) :
  timer_wait (obj l) = Some handle_timeout_cb ->
  timer_expiry (obj l) = time_sent_ (obj l) + timer_interval_ (obj l) ->
  timer_expiry (obj l) <= clock l ->
  exists l1,
    dispatch env TimerExpires l = Some (l1, None) /\
    wire l1 = wire l /\ clock l1 = clock l /\
    sequence_number_ (obj l1) = sequence_number_ (obj l) /\
    (count_ (obj l) <= sequence_number_ (obj l) ->
       socket_is_open (obj l1) = false /\ idle (obj l1) = true /\
       forall evs l2 x, play env evs l1 = Some (l2, x) -> wire l2 = wire l) /\
    (sequence_number_ (obj l) < count_ (obj l) ->
       socket_is_open (obj l1) = socket_is_open (obj l) /\
       timer_wait (obj l1) = Some start_send_cb /\
       timer_expiry (obj l1) = timer_expiry (obj l) /\
       timer_expiry (obj l1) <= clock l1 /\
       dispatch env TimerExpires l1 =
         (let e := start_send env (clock l) (with_timer (timer_expiry (obj l)) None (obj l1)) in
          Some (mk_loop (after e) (clock l) (wire l ++ emitted e), raised e))).
Proof.
  intros Hw Hd Hdue.
  unfold dispatch at 1. rewrite Hw.
  replace (timer_expiry (obj l) <=? clock l) with true by (symmetry; apply Z.leb_le; exact Hdue).
  eexists. split; [reflexivity|]. pinger_simpl.
  split; [reflexivity|]. split; [reflexivity|].
  unfold handle_timeout. pinger_simpl.
  destruct (sequence_number_ (obj l) >=? count_ (obj l)) eqn:G;
    rewrite Z.geb_leb in G; [apply Z.leb_le in G | apply Z.leb_gt in G].
  - set (p0 := with_socket_is_open false (with_timer (timer_expiry (obj l)) None (obj l))).
    destruct (cancelled_receive_frame env p0) as (Es & Ec & Ew & _ & _ & _ & Eo).
    split; [rewrite Es; reflexivity|].
    split; [|intros C; lia].
    intros _.
    assert (Hidle : idle (cancelled_receive env p0) = true).
    { unfold idle. rewrite Ew. unfold p0 at 2. pinger_simpl. rewrite andb_true_r.
      unfold cancelled_receive. cbn [negb andb].
      change (socket_is_open p0) with false. change (receive_wait p0) with (receive_wait (obj l)).
      cbn [negb andb].
      destruct (receive_wait (obj l)) eqn:R.
      - destruct (handle_receive_frame env (with_receive_wait false p0) [])
          as (_ & _ & _ & _ & _ & _ & _ & _ & Er).
        rewrite Er. unfold p0. pinger_simpl.
        replace (sequence_number_ (obj l) <? count_ (obj l)) with false
          by (symmetry; apply Z.ltb_ge; lia).
        reflexivity.
      - change (receive_wait p0) with (receive_wait (obj l)). rewrite R. reflexivity. }
    split; [rewrite Eo; reflexivity|]. split; [exact Hidle|].
    intros evs l2 x Hp.
    destruct (idle_play env evs (mk_loop (cancelled_receive env p0) (clock l) (wire l))
                l2 x Hidle Hp) as (_ & _ & E).
    exact E.
  - unfold cancelled_receive. pinger_simpl.
    destruct (negb (socket_is_open (obj l)) && receive_wait (obj l)) eqn:C.
    + destruct (handle_receive_frame env
                  (with_receive_wait false
                     (with_timer (time_sent_ (obj l) + timer_interval_ (obj l))
                        (Some start_send_cb) (with_timer (timer_expiry (obj l)) None (obj l)))) [])
        as (_ & Es & _ & _ & _ & Ee & Ew & Eo & _).
      pinger_simpl.
      split; [exact Es|]. split; [intros C'; lia|]. intros _.
      split; [exact Eo|]. split; [exact Ew|]. split; [rewrite Ee; lia|].
      split; [rewrite Ee; lia|].
      unfold dispatch. pinger_simpl. rewrite Ew, Ee.
      replace (time_sent_ (obj l) + timer_interval_ (obj l) <=? clock l) with true
        by (symmetry; apply Z.leb_le; lia).
      rewrite <- Hd. reflexivity.
    + pinger_simpl.
      split; [reflexivity|]. split; [intros C'; lia|]. intros _.
      split; [reflexivity|]. split; [reflexivity|]. split; [lia|]. split; [lia|].
      unfold dispatch. pinger_simpl.
      replace (time_sent_ (obj l) + timer_interval_ (obj l) <=? clock l) with true
        by (symmetry; apply Z.leb_le; lia).
      rewrite <- Hd. reflexivity.
Qed.

Lemma timeout_closes_or_rearms_same_deadline_witness :
  timer_wait (obj timeout_due) = Some handle_timeout_cb /\
  timer_expiry (obj timeout_due)
    = time_sent_ (obj timeout_due) + timer_interval_ (obj timeout_due) /\
  timer_expiry (obj timeout_due) <= clock timeout_due /\
  exists l1, dispatch sample_env TimerExpires timeout_due = Some (l1, None) /\
             wire l1 = wire timeout_due.
Proof.
  assert (H1 : timer_wait (obj timeout_due) = Some handle_timeout_cb)
    by (vm_compute; reflexivity).
  assert (H2 : timer_expiry (obj timeout_due)
               = time_sent_ (obj timeout_due) + timer_interval_ (obj timeout_due))
    by (vm_compute; reflexivity).
  assert (H3 : timer_expiry (obj timeout_due) <= clock timeout_due)
    by (vm_compute; discriminate).
  repeat (split; [assumption|]).
  destruct (timeout_closes_or_rearms_same_deadline sample_env timeout_due H1 H2 H3)
    as (l1 & Hd & Hw & _).
  exists l1. split; assumption.
Defined.

Lemma verdict_no_replies (p : pinger) :
  num_replies_ p = 0 -> 2 <= count_ p -> verdict p = false.
Proof.
  intros Hn Hc. unfold verdict. rewrite Hn. change (to_uint8 0) with 0.
  rewrite Z.gtb_ltb. apply Z.ltb_ge.
  apply Z.quot_pos; lia.
Qed.

(** C6, as stated, fails: an error completion of the receive does not end
    the run (the loop is still waiting after it, and the second probe is
    sent afterwards); and when the socket cannot be opened the exception
    leaves [ping]. *)
Lemma receive_fault_does_not_end_run :
  ping sample_env [ReceiveError] 1 2 1000 = None /\
  option_map (fun r => (map sent_at (wire (fst r)), snd r))
    (ping_session sample_env (ReceiveError :: quiet_events) 1 2 1000)
    = Some ([0; 1000], None) /\
  ping env_no_socket [] 1 2 1000 = Some (throws system_error).
Proof. repeat split; vm_compute; reflexivity. Qed.

(** C6, as the code has it: once the socket is open, [ping] returns a
    boolean; when the first send fails it returns false; when a later send
    fails the run ends there, whatever events would follow, and the result
    is the verdict on the state at the fault; an error completion of the
    receive is not a fault of the run: nothing is counted or sent, the
    timer is untouched and the receive is re-armed while the sequence
    number is below the count. *)
Theorem send_faults_absorbed_receive_faults_ignored
    (env : environment) (evs : list event) (address count ms : Z) :
  socket_opens env = true ->
  (forall r, ping env evs address count ms = Some r -> exists b, r = returns b) /\
  (send_to_ok env 1 = false -> ping env evs address count ms = Some (returns false)) /\
  (forall l e more,
     ping_session env evs address count ms = Some (l, Some e) ->
     ping env (evs ++ more) address count ms = Some (returns (verdict (obj l)))) /\
  (forall l,
     receive_wait (obj l) = true -> socket_is_open (obj l) = true ->
     reply_buffer_ (obj l) = [] ->
     exists l',
       dispatch env ReceiveError l = Some (l', None) /\
       num_replies_ (obj l') = num_replies_ (obj l) /\
       wire l' = wire l /\
       timer_wait (obj l') = timer_wait (obj l) /\
       socket_is_open (obj l') = true /\
       receive_wait (obj l') = (sequence_number_ (obj l) <? count_ (obj l))).
Proof.
  intros Ho. split; [|split; [|split]].
  - intros r. unfold ping. rewrite Ho.
    destruct (ping_session env evs address count ms) as [[l x]|]; [|discriminate].
    intros [= <-]. eexists. reflexivity.
  - intros Hs. unfold ping, ping_session. rewrite Ho, clamp_is_max.
    destruct (first_send env address (Z.max count 2) ms ltac:(lia))
      as (Ecount & _ & En & _ & Hfail).
    rewrite (Hfail Hs). pinger_simpl.
    rewrite verdict_no_replies; [reflexivity | exact En | rewrite Ecount; lia].
  - intros l e more Hs. unfold ping. rewrite Ho.
    replace (ping_session env (evs ++ more) address count ms) with (Some (l, Some e));
      [reflexivity|].
    symmetry. revert Hs. unfold ping_session.
    destruct (raised (start_send env 0 _)); [trivial|].
    apply run_app.
  - intros l Hw Hso Hb. unfold dispatch. rewrite Hw, Hso. cbn [andb].
    eexists. split; [reflexivity|]. pinger_simpl.
    destruct (handle_receive_frame env (with_receive_wait false (obj l)) [])
      as (_ & _ & _ & _ & _ & _ & Et & Eo & Er).
    rewrite handle_receive_num_replies, Et, Eo, Er. pinger_simpl.
    rewrite Hb, orb_false_r.
    repeat split; try assumption.
Qed.

Lemma send_faults_absorbed_receive_faults_ignored_witness :
  socket_opens env_send_fails = true /\
  ping env_send_fails quiet_events 1 4 1000 = Some (returns false).
Proof.
  split; [reflexivity|].
  apply (send_faults_absorbed_receive_faults_ignored env_send_fails quiet_events 1 4 1000);
    reflexivity.
Defined.

(** * Further properties *)


Lemma skipn_repeat_byte (x : byte) (n m : nat) :
  skipn n (repeat x m) = repeat x (m - n).
Proof.
  revert m. induction n as [|n IH]; intros m.
  - rewrite Nat.sub_0_r. reflexivity.
  - destruct m as [|m]; [reflexivity|]. cbn [repeat skipn]. apply IH.
Qed.

Lemma firstn_plus (a b : nat) (l : list byte) :
  firstn (a + b) l = firstn a l ++ firstn b (skipn a l).
Proof.
  revert l. induction a as [|a IH]; intros l; [reflexivity|].
  destruct l as [|x l]; [destruct b; reflexivity|].
  cbn [Nat.add firstn skipn app]. f_equal. apply IH.
Qed.

(** What a successful decode leaves: the header bytes, options included,
    in [rep_], zeros behind them, and the stream at the first byte after
    the header. *)
Lemma ipv4_decode_success_form (bs : list byte) :
  istream.ok (fst (ipv4_decode bs)) = true ->
  let hl := Z.to_nat (ipv4_header.header_length (snd (ipv4_decode bs))) in
  (20 <= hl <= 60)%nat /\ (hl <= length bs)%nat /\
  fst (ipv4_decode bs) = istream.mk (skipn hl bs) false false /\
  ipv4_header.rep_ (snd (ipv4_decode bs)) = firstn hl bs ++ repeat x00 (60 - hl).
Proof.
  destruct (ipv4_decode_ok bs) as [H0 Hok]. intros Ok. rewrite Ok in Hok.
  symmetry in Hok. apply andb_prop in Hok as [Hok Hle].
  apply andb_prop in Hok as [Hok Hge]. apply andb_prop in Hok as [Hlen Hver].
  apply Z.leb_le in Hle, Hge, Hlen.
  destruct (ipv4_header_length_range (snd (ipv4_decode bs))) as [Hr Hm].
  cbv zeta.
  set (hl := ipv4_header.header_length (snd (ipv4_decode bs))) in *.
  assert (Hhl : hl = 4 * Z.land (uchar (nth 0 bs x00)) 15) by (rewrite Hm, H0; reflexivity).
  assert (Hv : Z.land (Z.shiftr (uchar (nth 0 bs x00)) 4) 15 = 4).
  { rewrite <- H0, <- ipv4_version_nibble. apply Z.eqb_eq, Hver. }
  split; [lia|]. split; [lia|].
  clearbody hl. clear Ok Hver H0 Hm.
  unfold ipv4_decode, ipv4_header.operator_shr.
  rewrite istream_read_fresh.
  replace (Z.of_nat (length bs) <? 20) with false by (symmetry; apply Z.ltb_ge; lia).
  change (Z.to_nat 20) with 20%nat.
  change (ipv4_header.rep_ ipv4_header.ctor) with (repeat x00 60).
  assert (Hl20 : length (firstn 20 bs) = 20%nat) by (rewrite length_firstn; lia).
  assert (Hrep1 : rep_blit (repeat x00 60) 0 (firstn 20 bs) = firstn 20 bs ++ repeat x00 40).
  { unfold rep_blit. rewrite Hl20. reflexivity. }
  rewrite Hrep1.
  set (h1 := ipv4_header.mk (firstn 20 bs ++ repeat x00 40)).
  assert (Hb0 : rep_at (ipv4_header.rep_ h1) 0 = uchar (nth 0 bs x00)).
  { unfold rep_at, h1. cbn [ipv4_header.rep_]. f_equal.
    rewrite app_nth1 by lia. apply nth_0_firstn. lia. }
  assert (Hv1 : ipv4_header.version h1 = 4) by (rewrite ipv4_version_nibble, Hb0; exact Hv).
  assert (Hl1 : ipv4_header.header_length h1 = hl).
  { rewrite (proj2 (ipv4_header_length_range h1)), Hb0. lia. }
  rewrite Hv1. cbn [Z.eqb Pos.eqb negb].
  unfold ipv4_header.options_length. rewrite Hl1.
  replace (hl - 20 <? 0) with false by (symmetry; apply Z.ltb_ge; lia).
  replace (hl - 20 >? 40) with false by (rewrite Z.gtb_ltb; symmetry; apply Z.ltb_ge; lia).
  cbn [orb].
  unfold istream.read, istream.good.
  cbn [istream.failbit istream.eofbit istream.data negb andb].
  rewrite length_firstn, length_skipn.
  replace (Z.of_nat (Nat.min (Z.to_nat (hl - 20)) (length bs - 20)) <? hl - 20) with false
    by (symmetry; apply Z.ltb_ge; lia).
  cbn [fst snd ipv4_header.rep_]. split.
  - f_equal. rewrite skipn_skipn. f_equal. lia.
  - unfold rep_blit, h1. cbn [ipv4_header.rep_].
    rewrite length_firstn, length_skipn.
    replace (Nat.min (Z.to_nat (hl - 20)) (length bs - 20)) with (Z.to_nat hl - 20)%nat by lia.
    rewrite firstn_app, Hl20, Nat.sub_diag, firstn_firstn, Nat.min_id.
    rewrite firstn_O, app_nil_r.
    rewrite skipn_app, Hl20.
    replace (20 + (Z.to_nat hl - 20))%nat with (Z.to_nat hl) by lia.
    rewrite (skipn_all2 (firstn 20 bs)) by lia. cbn [app].
    rewrite skipn_repeat_byte.
    replace (Z.to_nat (hl - 20)) with (Z.to_nat hl - 20)%nat by lia.
    rewrite app_assoc, <- firstn_plus.
    replace (20 + (Z.to_nat hl - 20))%nat with (Z.to_nat hl) by lia.
    f_equal. f_equal. lia.
Qed.


Lemma fold_twice_verifies (s : Z) :
  0 <= s < 2 ^ 32 ->
  let ck := Z.land (Z.lnot (fold_twice s)) 65535 in
  0 <= ck < 65536 /\ Z.land (Z.lnot (fold_twice (s + ck))) 65535 = 0.
Proof.
  intros Hs. cbv zeta. unfold fold_twice.
  assert (L : forall x, Z.land x 65535 = x mod 65536)
    by (intros x; apply (Z.land_ones x 16); lia).
  rewrite !L, !Z.shiftr_div_pow2 by lia. change (2 ^ 16) with 65536.
  rewrite !Z.lnot_eq_pred_opp.
  pose proof (Z.div_mod s 65536 ltac:(lia)) as Es.
  pose proof (Z.mod_pos_bound s 65536 ltac:(lia)) as Hb.
  assert (Ha : 0 <= s / 65536 < 65536)
    by (split; [apply Z.div_pos | apply Z.div_lt_upper_bound]; lia).
  set (a := s / 65536) in *. set (b := s mod 65536) in *.
  pose proof (Z.div_mod (a + b) 65536 ltac:(lia)) as Ef.
  pose proof (Z.mod_pos_bound (a + b) 65536 ltac:(lia)) as Hd.
  assert (Hc : 0 <= (a + b) / 65536 <= 1)
    by (split; [apply Z.div_pos | apply Z.lt_succ_r, Z.div_lt_upper_bound]; lia).
  set (c := (a + b) / 65536) in *. set (d := (a + b) mod 65536) in *.
  assert (Hr : (- (a + b + c) - 1) mod 65536 = 65535 - (d + c)).
  { symmetry. apply Z.mod_unique with (- c - 1); lia. }
  rewrite Hr. split; [lia|].
  set (m := a + 1 + c).
  assert (ET : s + (65535 - (d + c)) = 65535 * m) by (unfold m; lia).
  rewrite ET.
  destruct (Z.eq_dec m 65537) as [->|Hm]; [reflexivity|].
  assert (Hq : 65535 * m / 65536 = m - 1)
    by (symmetry; apply Z.div_unique with (65536 - m); unfold m in *; lia).
  assert (Hs' : (65535 * m) mod 65536 = 65536 - m)
    by (symmetry; apply Z.mod_unique with (m - 1); unfold m in *; lia).
  rewrite Hq, Hs'.
  replace (m - 1 + (65536 - m)) with 65535 by lia. reflexivity.
Qed.



(** X7: A message whose checksum field was set by [compute_checksum] verifies:
    the sum of all its 16-bit words, the checksum word included, folded
    twice and complemented, is zero in its low 16 bits (header of eight
    bytes, body of at most 131068 bytes). *)
Theorem computed_checksum_verifies (h : icmp_header.t) (body : list byte) :
  length (icmp_header.rep_ h) = 8%nat ->
  Z.of_nat (length body) <= 131068 ->
  Z.land (Z.lnot (fold_twice (message_sum (compute_checksum h body) body))) 65535 = 0.
Proof.
  intros Hlen Hbody.
  destruct (compute_checksum_fields_kept h body Hlen) as (_ & Et & Ec & Ei & Eq).
  pose proof (short_body_no_wrap h body Hbody) as Hsum.
  pose proof (compute_checksum_closed h body Hlen) as Ek. cbv zeta in Ek.
  set (S := Z.shiftl (icmp_header.type h) 8 + icmp_header.code h
            + icmp_header.identifier h + icmp_header.sequence_number h
            + sum_words (body_words body)) in *.
  assert (HS : 0 <= S).
  { pose proof (uchar_range (nth 0 (icmp_header.rep_ h) x00)) as Ht.
    pose proof (uchar_range (nth 1 (icmp_header.rep_ h) x00)) as Hc.
    pose proof (icmp_decode_range h 4 5) as Hi.
    pose proof (icmp_decode_range h 6 7) as Hq.
    pose proof (body_words_sum_bound body) as [Hb _].
    unfold S, icmp_header.type, icmp_header.code, icmp_header.identifier,
      icmp_header.sequence_number, rep_at.
    rewrite Z.shiftl_mul_pow2 by lia. lia. }
  assert (Eu : to_uint S = S) by (apply Z.mod_small; lia).
  rewrite Eu in Ek. fold (fold_twice S) in Ek.
  unfold message_sum. rewrite Et, Ec, Ei, Eq, Ek.
  replace (Z.shiftl (icmp_header.type h) 8 + icmp_header.code h
           + Z.land (Z.lnot (fold_twice S)) 65535 + icmp_header.identifier h
           + icmp_header.sequence_number h + sum_words (body_words body))
    with (S + Z.land (Z.lnot (fold_twice S)) 65535) by (unfold S; lia).
  apply (fold_twice_verifies S). lia.
Qed.

Lemma computed_checksum_verifies_witness :
  length (icmp_header.rep_ (build_echo_request sample_env 1)) = 8%nat /\
  Z.of_nat (length body) <= 131068 /\
  Z.land (Z.lnot (fold_twice
    (message_sum (compute_checksum (build_echo_request sample_env 1) body) body))) 65535 = 0.
Proof.
  assert (H1 : length (icmp_header.rep_ (build_echo_request sample_env 1)) = 8%nat)
    by (vm_compute; reflexivity).
  assert (H2 : Z.of_nat (length body) <= 131068) by (vm_compute; discriminate).
  split; [exact H1|]. split; [exact H2|].
  exact (computed_checksum_verifies _ _ H1 H2).
Defined.

Ltac eight_bytes h Hlen :=
  destruct h as [rep]; cbn [icmp_header.rep_] in Hlen;
  do 8 (destruct rep as [|? rep]; [discriminate Hlen|]);
  destruct rep; [clear Hlen|discriminate Hlen].

Lemma compute_checksum_after_set_checksum (h : icmp_header.t) (x : Z) (body : list byte) :
  length (icmp_header.rep_ h) = 8%nat ->
  compute_checksum (icmp_header.set_checksum h x) body = compute_checksum h body.
Proof.
  intros Hlen. eight_bytes h Hlen. reflexivity.
Qed.

(** X8: [compute_checksum] does not read the checksum field: whatever the
    field held before, the header that results is the same; computing the
    checksum a second time changes nothing. *)
Theorem compute_checksum_ignores_checksum_field
    (h : icmp_header.t) (x : Z) (body : list byte) :
  length (icmp_header.rep_ h) = 8%nat ->
  compute_checksum (icmp_header.set_checksum h x) body = compute_checksum h body /\
  compute_checksum (compute_checksum h body) body = compute_checksum h body.
Proof.
  intros Hlen. split.
  - apply compute_checksum_after_set_checksum, Hlen.
  - unfold compute_checksum at 2. apply compute_checksum_after_set_checksum, Hlen.
Qed.

Lemma compute_checksum_ignores_checksum_field_witness :
  length (icmp_header.rep_ icmp_header.ctor) = 8%nat /\
  compute_checksum (icmp_header.set_checksum icmp_header.ctor 4660) body
    = compute_checksum icmp_header.ctor body.
Proof.
  split; [reflexivity|].
  apply (compute_checksum_ignores_checksum_field icmp_header.ctor 4660 body). reflexivity.
Defined.



Lemma uchar_to_uchar_mod (z : Z) : uchar (to_uchar z) = z mod 256.
Proof.
  unfold to_uchar, uchar.
  pose proof (Z.mod_pos_bound z 256 ltac:(lia)) as Hb.
  destruct (Byte.of_N (Z.to_N (z mod 256))) as [b|] eqn:E.
  - apply Byte.to_of_N in E. rewrite E. apply Z2N.id. lia.
  - apply Byte.of_N_None_iff in E. apply N2Z.inj_lt in E.
    rewrite Z2N.id in E by lia. simpl in E. lia.
Qed.

Lemma to_ushort_range (n : Z) : 0 <= to_ushort n < 65536.
Proof. unfold to_ushort. apply Z.mod_pos_bound. lia. Qed.

(** X4: Each setter stores its argument narrowed to the width of the field and
    leaves the four other fields as they were. *)
Theorem icmp_setters_set_one_field (h : icmp_header.t) (n : Z) :
  length (icmp_header.rep_ h) = 8%nat ->
  (icmp_header.type (icmp_header.set_type h n) = n mod 2 ^ 8 /\
   icmp_header.code (icmp_header.set_type h n) = icmp_header.code h /\
   icmp_header.checksum (icmp_header.set_type h n) = icmp_header.checksum h /\
   icmp_header.identifier (icmp_header.set_type h n) = icmp_header.identifier h /\
   icmp_header.sequence_number (icmp_header.set_type h n) = icmp_header.sequence_number h) /\
  (icmp_header.type (icmp_header.set_code h n) = icmp_header.type h /\
   icmp_header.code (icmp_header.set_code h n) = n mod 2 ^ 8 /\
   icmp_header.checksum (icmp_header.set_code h n) = icmp_header.checksum h /\
   icmp_header.identifier (icmp_header.set_code h n) = icmp_header.identifier h /\
   icmp_header.sequence_number (icmp_header.set_code h n) = icmp_header.sequence_number h) /\
  (icmp_header.type (icmp_header.set_checksum h n) = icmp_header.type h /\
   icmp_header.code (icmp_header.set_checksum h n) = icmp_header.code h /\
   icmp_header.checksum (icmp_header.set_checksum h n) = n mod 2 ^ 16 /\
   icmp_header.identifier (icmp_header.set_checksum h n) = icmp_header.identifier h /\
   icmp_header.sequence_number (icmp_header.set_checksum h n) = icmp_header.sequence_number h) /\
  (icmp_header.type (icmp_header.set_identifier h n) = icmp_header.type h /\
   icmp_header.code (icmp_header.set_identifier h n) = icmp_header.code h /\
   icmp_header.checksum (icmp_header.set_identifier h n) = icmp_header.checksum h /\
   icmp_header.identifier (icmp_header.set_identifier h n) = n mod 2 ^ 16 /\
   icmp_header.sequence_number (icmp_header.set_identifier h n) = icmp_header.sequence_number h) /\
  (icmp_header.type (icmp_header.set_sequence_number h n) = icmp_header.type h /\
   icmp_header.code (icmp_header.set_sequence_number h n) = icmp_header.code h /\
   icmp_header.checksum (icmp_header.set_sequence_number h n) = icmp_header.checksum h /\
   icmp_header.identifier (icmp_header.set_sequence_number h n) = icmp_header.identifier h /\
   icmp_header.sequence_number (icmp_header.set_sequence_number h n) = n mod 2 ^ 16).
Proof.
  intros Hlen.
  assert (Hk : icmp_header.checksum (icmp_header.set_checksum h n) = n mod 2 ^ 16).
  { apply icmp_decode_encode; try (rewrite Hlen; lia); try lia. apply to_ushort_range. }
  assert (Hi : icmp_header.identifier (icmp_header.set_identifier h n) = n mod 2 ^ 16).
  { apply icmp_decode_encode; try (rewrite Hlen; lia); try lia. apply to_ushort_range. }
  assert (Hs : icmp_header.sequence_number (icmp_header.set_sequence_number h n) = n mod 2 ^ 16).
  { apply icmp_decode_encode; try (rewrite Hlen; lia); try lia. apply to_ushort_range. }
  assert (Ht : icmp_header.type (icmp_header.set_type h n) = n mod 2 ^ 8).
  { unfold icmp_header.type, icmp_header.set_type, rep_at. cbn [icmp_header.rep_].
    rewrite rep_store_nth_same by (rewrite Hlen; lia). apply uchar_to_uchar_mod. }
  assert (Hc : icmp_header.code (icmp_header.set_code h n) = n mod 2 ^ 8).
  { unfold icmp_header.code, icmp_header.set_code, rep_at. cbn [icmp_header.rep_].
    rewrite rep_store_nth_same by (rewrite Hlen; lia). apply uchar_to_uchar_mod. }
  eight_bytes h Hlen.
  repeat split; first [assumption | reflexivity].
Qed.

Lemma icmp_setters_set_one_field_witness :
  length (icmp_header.rep_ icmp_header.ctor) = 8%nat /\
  icmp_header.identifier (icmp_header.set_identifier icmp_header.ctor 70196) = 4660.
Proof.
  split; [reflexivity|].
  rewrite (proj1 (proj2 (proj2 (proj2 (proj1 (proj2 (proj2 (proj2
             (icmp_setters_set_one_field icmp_header.ctor 70196 eq_refl))))))))).
  reflexivity.
Defined.

Lemma icmp_operator_shr_spec (s : istream.t) (h : icmp_header.t) :
  (istream.ok (fst (icmp_header.operator_shr s h)) = true <->
     istream.good s = true /\ (8 <= length (istream.data s))%nat) /\
  (istream.ok (fst (icmp_header.operator_shr s h)) = true ->
     length (icmp_header.rep_ h) = 8%nat ->
     icmp_header.rep_ (snd (icmp_header.operator_shr s h)) = firstn 8 (istream.data s) /\
     istream.data (fst (icmp_header.operator_shr s h)) = skipn 8 (istream.data s)) /\
  (istream.good s = false -> snd (icmp_header.operator_shr s h) = h).
Proof.
  unfold icmp_header.operator_shr, istream.read, istream.ok.
  destruct s as [data f e]. unfold istream.good. cbn [istream.failbit istream.eofbit istream.data].
  change (Z.to_nat 8) with 8%nat.
  destruct f, e; cbn [negb andb fst snd istream.failbit icmp_header.rep_];
    try (split; [split; [discriminate | intros [C _]; discriminate C]
                |split; [discriminate | intros _; destruct h; unfold rep_blit; reflexivity]]).
  rewrite length_firstn.
  destruct (Z.of_nat (Nat.min 8 (length data)) <? 8) eqn:E;
    [apply Z.ltb_lt in E | apply Z.ltb_ge in E];
    cbn [fst snd istream.failbit istream.data negb icmp_header.rep_].
  - split; [split; [discriminate | intros [_ C]; lia]|].
    split; [discriminate | discriminate].
  - split; [split; [intros _; split; [reflexivity | lia] | reflexivity]|].
    split; [|discriminate].
    intros _ Hlen. split; [|reflexivity].
    unfold rep_blit. rewrite firstn_O. cbn [app Nat.add].
    rewrite length_firstn. replace (Nat.min 8 (length data)) with 8%nat by lia.
    rewrite skipn_all2 by lia. apply app_nil_r.
Qed.

(** X5: Extraction of an ICMP header succeeds exactly on a good stream with
    eight bytes left; it then takes exactly these eight bytes. *)
Theorem icmp_extract_needs_eight_bytes (s : istream.t) (h : icmp_header.t) :
  (istream.ok (fst (icmp_header.operator_shr s h)) = true <->
     istream.good s = true /\ (8 <= length (istream.data s))%nat) /\
  (istream.ok (fst (icmp_header.operator_shr s h)) = true ->
     length (icmp_header.rep_ h) = 8%nat ->
     icmp_header.rep_ (snd (icmp_header.operator_shr s h)) = firstn 8 (istream.data s) /\
     istream.data (fst (icmp_header.operator_shr s h)) = skipn 8 (istream.data s)) /\
  (istream.good s = false -> snd (icmp_header.operator_shr s h) = h).
Proof. exact (icmp_operator_shr_spec s h). Qed.

Lemma icmp_extract_needs_eight_bytes_witness :
  istream.ok (fst (icmp_header.operator_shr
                     (istream.of_bytes [x00; x00; x00; x00; x12; x34; x00; x01; xaa])
                     icmp_header.ctor)) = true /\
  length (icmp_header.rep_ icmp_header.ctor) = 8%nat /\
  istream.data (fst (icmp_header.operator_shr
                       (istream.of_bytes [x00; x00; x00; x00; x12; x34; x00; x01; xaa])
                       icmp_header.ctor)) = [xaa].
Proof.
  split; [reflexivity|]. split; [reflexivity|].
  rewrite (proj2 (proj1 (proj2 (icmp_extract_needs_eight_bytes
             (istream.of_bytes [x00; x00; x00; x00; x12; x34; x00; x01; xaa])
             icmp_header.ctor)) eq_refl eq_refl)).
  reflexivity.
Defined.

Lemma icmp_read_back (h h0 : icmp_header.t) (rest : list byte) :
  length (icmp_header.rep_ h) = 8%nat ->
  length (icmp_header.rep_ h0) = 8%nat ->
  icmp_header.operator_shr (istream.of_bytes (icmp_header.operator_shl [] h ++ rest)) h0
    = (istream.of_bytes rest, h).
Proof.
  intros Hlen Hlen0. destruct h as [rep]. cbn [icmp_header.rep_] in *.
  unfold icmp_header.operator_shr, icmp_header.operator_shl.
  cbn [app icmp_header.rep_].
  rewrite (firstn_all2 rep) by lia.
  rewrite istream_read_fresh. change (Z.to_nat 8) with 8%nat.
  rewrite length_app.
  replace (Z.of_nat (length rep + length rest) <? 8) with false
    by (symmetry; apply Z.ltb_ge; lia).
  rewrite firstn_app, skipn_app, Hlen, Nat.sub_diag, firstn_O, app_nil_r.
  rewrite (firstn_all2 rep), (skipn_all2 rep) by lia. cbn [skipn app].
  unfold rep_blit. rewrite firstn_O. cbn [app Nat.add]. rewrite Hlen, skipn_all2 by lia.
  rewrite app_nil_r. reflexivity.
Qed.

(** X6: What [operator<<] writes, [operator>>] reads back. *)
Theorem icmp_write_read_round_trip (h h0 : icmp_header.t) (rest : list byte) :
  length (icmp_header.rep_ h) = 8%nat ->
  length (icmp_header.rep_ h0) = 8%nat ->
  icmp_header.operator_shr (istream.of_bytes (icmp_header.operator_shl [] h ++ rest)) h0
    = (istream.of_bytes rest, h).
Proof. exact (icmp_read_back h h0 rest). Qed.

Lemma icmp_write_read_round_trip_witness :
  length (icmp_header.rep_ (build_echo_request sample_env 1)) = 8%nat /\
  length (icmp_header.rep_ icmp_header.ctor) = 8%nat /\
  icmp_header.operator_shr
    (istream.of_bytes (icmp_header.operator_shl [] (build_echo_request sample_env 1) ++ body))
    icmp_header.ctor
  = (istream.of_bytes body, build_echo_request sample_env 1).
Proof.
  assert (H : length (icmp_header.rep_ (build_echo_request sample_env 1)) = 8%nat)
    by (vm_compute; reflexivity).
  split; [exact H|]. split; [reflexivity|].
  exact (icmp_write_read_round_trip _ icmp_header.ctor body H eq_refl).
Defined.


(** X1: A decode that succeeds has taken exactly [header_length] bytes, between
    20 and 60, from the stream: they are the header, options included. *)
Theorem ipv4_decode_takes_header_length (bs : list byte) :
  istream.ok (fst (ipv4_decode bs)) = true ->
  let hl := Z.to_nat (ipv4_header.header_length (snd (ipv4_decode bs))) in
  (20 <= hl <= 60)%nat /\ (hl <= length bs)%nat /\
  istream.good (fst (ipv4_decode bs)) = true /\
  istream.data (fst (ipv4_decode bs)) = skipn hl bs /\
  ipv4_header.rep_ (snd (ipv4_decode bs)) = firstn hl bs ++ repeat x00 (60 - hl).
Proof.
  intros Ok. destruct (ipv4_decode_success_form bs Ok) as (H1 & H2 & H3 & H4).
  cbv zeta. rewrite H3. repeat split; try lia; assumption.
Qed.

Lemma ipv4_decode_takes_header_length_witness :
  istream.ok (fst (ipv4_decode ipv4_with_options)) = true /\
  istream.data (fst (ipv4_decode ipv4_with_options)) = [xaa; xbb].
Proof.
  assert (H : istream.ok (fst (ipv4_decode ipv4_with_options)) = true)
    by (vm_compute; reflexivity).
  split; [exact H|].
  rewrite (proj1 (proj2 (proj2 (proj2 (ipv4_decode_takes_header_length _ H))))).
  vm_compute. reflexivity.
Defined.

Lemma ipv4_decoded_byte (bs : list byte) (i : nat) :
  istream.ok (fst (ipv4_decode bs)) = true -> (i < 20)%nat ->
  rep_at (ipv4_header.rep_ (snd (ipv4_decode bs))) i = uchar (nth i bs x00).
Proof.
  intros Ok Hi. destruct (ipv4_decode_success_form bs Ok) as (H1 & H2 & _ & H4).
  cbv zeta in *. unfold rep_at. rewrite H4. f_equal.
  rewrite app_nth1 by (rewrite length_firstn; lia).
  rewrite nth_firstn.
  replace (i <? Z.to_nat (ipv4_header.header_length (snd (ipv4_decode bs))))%nat with true
    by (symmetry; apply Nat.ltb_lt; lia).
  reflexivity.
Qed.

Lemma be16_value (x y : Z) :
  0 <= x < 256 -> 0 <= y < 256 -> to_ushort (Z.shiftl x 8 + y) = 256 * x + y.
Proof.
  intros Hx Hy. unfold to_ushort. rewrite Z.shiftl_mul_pow2 by lia.
  change (2 ^ 8) with 256. rewrite Z.mod_small by lia. lia.
Qed.

Lemma testbit_be16_high (x y n : Z) :
  0 <= y < 256 -> 8 <= n -> Z.testbit (256 * x + y) n = Z.testbit x (n - 8).
Proof.
  intros Hy Hn.
  replace (256 * x + y) with (Z.lor (Z.shiftl x 8) y)
    by (rewrite lor_high_low by assumption; rewrite Z.shiftl_mul_pow2 by lia; lia).
  rewrite Z.lor_spec, Z.shiftl_spec by lia.
  destruct (Z.eq_dec y 0) as [->|Hnz]; [rewrite Z.bits_0; apply orb_false_r|].
  rewrite (Z.bits_above_log2 y n); [apply orb_false_r | lia |].
  apply Z.log2_lt_pow2; [lia|].
  apply Z.lt_le_trans with (2 ^ 8); [simpl; lia|].
  apply Z.pow_le_mono_r; lia.
Qed.

Lemma byte_flag_bit (b : byte) (k : Z) :
  k = 5 \/ k = 6 ->
  negb (Z.land (uchar b) (2 ^ k) =? 0) = Z.testbit (uchar b) k.
Proof. intros [-> | ->]; destruct b; reflexivity. Qed.

(** X2: The accessors of a decoded header read the fixed part of the stream:
    single bytes at their offsets, 16-bit fields big-endian, and the word
    at offsets 6 and 7 split into the don't-fragment bit (bit 14), the
    more-fragments bit (bit 13) and the 13-bit fragment offset. *)
Theorem ipv4_accessors_read_fixed_part (bs : list byte) :
  istream.ok (fst (ipv4_decode bs)) = true ->
  let h := snd (ipv4_decode bs) in
  let b := fun i => uchar (nth i bs x00) in
  ipv4_header.type_of_service h = b 1%nat /\
  ipv4_header.total_length h = 256 * b 2%nat + b 3%nat /\
  ipv4_header.identification h = 256 * b 4%nat + b 5%nat /\
  ipv4_header.dont_fragment h = Z.testbit (256 * b 6%nat + b 7%nat) 14 /\
  ipv4_header.more_fragments h = Z.testbit (256 * b 6%nat + b 7%nat) 13 /\
  ipv4_header.fragment_offset h = (256 * b 6%nat + b 7%nat) mod 2 ^ 13 /\
  ipv4_header.time_to_live h = b 8%nat /\
  ipv4_header.protocol h = b 9%nat /\
  ipv4_header.header_checksum h = 256 * b 10%nat + b 11%nat /\
  ipv4_header.source_address h
    = [nth 12 bs x00; nth 13 bs x00; nth 14 bs x00; nth 15 bs x00] /\
  ipv4_header.destination_address h
    = [nth 16 bs x00; nth 17 bs x00; nth 18 bs x00; nth 19 bs x00].
Proof.
  intros Ok. cbv zeta.
  assert (B : forall i, (i < 20)%nat ->
            rep_at (ipv4_header.rep_ (snd (ipv4_decode bs))) i = uchar (nth i bs x00))
    by (intros i Hi; apply ipv4_decoded_byte; assumption).
  assert (R : forall i, 0 <= uchar (nth i bs x00) < 256) by (intros i; apply uchar_range).
  assert (A : forall i, (i < 20)%nat ->
            nth i (ipv4_header.rep_ (snd (ipv4_decode bs))) x00 = nth i bs x00).
  { intros i Hi. rewrite <- (to_uchar_uchar (nth i bs x00)), <- B by assumption.
    symmetry. apply to_uchar_uchar. }
  unfold ipv4_header.type_of_service, ipv4_header.total_length, ipv4_header.identification,
    ipv4_header.dont_fragment, ipv4_header.more_fragments, ipv4_header.fragment_offset,
    ipv4_header.time_to_live, ipv4_header.protocol, ipv4_header.header_checksum,
    ipv4_header.decode, ipv4_header.source_address, ipv4_header.destination_address.
  rewrite !A by lia. rewrite !B by lia. rewrite !be16_value by apply R.
  repeat split.
  - rewrite testbit_be16_high by (try apply R; lia).
    apply (byte_flag_bit (nth 6 bs x00) 6). right. reflexivity.
  - rewrite testbit_be16_high by (try apply R; lia).
    apply (byte_flag_bit (nth 6 bs x00) 5). left. reflexivity.
  - assert (E : forall x, Z.land x 8191 = x mod 2 ^ 13)
      by (intros x; apply (Z.land_ones x 13); lia).
    rewrite E. unfold to_ushort. apply Z.mod_small.
    pose proof (Z.mod_pos_bound (256 * uchar (nth 6 bs x00) + uchar (nth 7 bs x00)) (2 ^ 13)).
    lia.
Qed.

Lemma ipv4_accessors_read_fixed_part_witness :
  istream.ok (fst (ipv4_decode ipv4_with_options)) = true /\
  ipv4_header.dont_fragment (snd (ipv4_decode ipv4_with_options)) = true /\
  ipv4_header.protocol (snd (ipv4_decode ipv4_with_options)) = 1.
Proof.
  assert (H : istream.ok (fst (ipv4_decode ipv4_with_options)) = true)
    by (vm_compute; reflexivity).
  split; [exact H|].
  destruct (ipv4_accessors_read_fixed_part _ H) as (_ & _ & _ & Hd & _ & _ & _ & Hp & _ & _ & _).
  rewrite Hd, Hp. split; vm_compute; reflexivity.
Defined.

Lemma rep_blit_nothing (rep : list byte) (off : nat) : rep_blit rep off [] = rep.
Proof. unfold rep_blit. cbn [app length]. rewrite Nat.add_0_r. apply firstn_skipn. Qed.

(** X3: Extraction of an IPv4 header from a stream that is not good (an
    earlier extraction failed) takes nothing: the header is as it was and
    the stream has failed. *)
Theorem ipv4_extract_from_failed_stream (s : istream.t) (h : ipv4_header.t) :
  istream.good s = false ->
  snd (ipv4_header.operator_shr s h) = h /\
  istream.ok (fst (ipv4_header.operator_shr s h)) = false /\
  istream.data (fst (ipv4_header.operator_shr s h)) = istream.data s.
Proof.
  intros Hg. unfold ipv4_header.operator_shr, istream.read. rewrite Hg.
  rewrite rep_blit_nothing. destruct h as [rep]. cbn [ipv4_header.rep_].
  set (s1 := if negb _ then _ else _).
  assert (H1 : istream.good s1 = false /\ istream.failbit s1 = true
               /\ istream.data s1 = istream.data s).
  { unfold s1. destruct (negb _); repeat split;
      unfold istream.good; cbn [istream.setstate_failbit istream.failbit negb andb];
      reflexivity. }
  destruct H1 as (Hg1 & Hf1 & Hd1).
  destruct (_ || _).
  - cbn [fst snd]. split; [reflexivity|]. split; [reflexivity | exact Hd1].
  - rewrite Hg1. cbn [fst snd ipv4_header.rep_]. rewrite rep_blit_nothing.
    split; [reflexivity|]. split; [reflexivity | exact Hd1].
Qed.

Lemma ipv4_extract_from_failed_stream_witness :
  istream.good (istream.mk canonical_ipv4 true true) = false /\
  snd (ipv4_header.operator_shr (istream.mk canonical_ipv4 true true) ipv4_header.ctor)
    = ipv4_header.ctor.
Proof.
  split; [reflexivity|].
  apply (ipv4_extract_from_failed_stream (istream.mk canonical_ipv4 true true)
           ipv4_header.ctor). reflexivity.
Defined.



Lemma decode_reply_spec (bs : list byte) :
  let hl := Z.to_nat (ipv4_header.header_length (snd (ipv4_decode bs))) in
  (istream.ok (fst (decode_reply bs)) = true <->
     istream.ok (fst (ipv4_decode bs)) = true /\ (hl + 8 <= length bs)%nat) /\
  (istream.ok (fst (decode_reply bs)) = true ->
     icmp_header.rep_ (snd (decode_reply bs)) = firstn 8 (skipn hl bs) /\
     istream.data (fst (decode_reply bs)) = skipn (hl + 8) bs).
Proof.
  cbv zeta. unfold decode_reply.
  destruct (icmp_operator_shr_spec (fst (ipv4_decode bs)) icmp_header.ctor) as (Hiff & Hrep & _).
  assert (Hgood : istream.good (fst (ipv4_decode bs)) = true ->
                  istream.ok (fst (ipv4_decode bs)) = true).
  { unfold istream.good, istream.ok. intros H. apply andb_prop in H as [H _]. exact H. }
  split.
  - rewrite Hiff. split.
    + intros [Hg Hl]. pose proof (Hgood Hg) as Ok.
      destruct (ipv4_decode_success_form bs Ok) as (H1 & H2 & H3 & _). cbv zeta in *.
      split; [exact Ok|]. rewrite H3 in Hl. cbn [istream.data] in Hl.
      rewrite length_skipn in Hl. lia.
    + intros [Ok Hl].
      destruct (ipv4_decode_success_form bs Ok) as (H1 & H2 & H3 & _). cbv zeta in *.
      rewrite H3. split; [reflexivity|]. cbn [istream.data]. rewrite length_skipn. lia.
  - intros Ok2. destruct (Hrep Ok2 eq_refl) as [Er Ed].
    apply Hiff in Ok2 as [Hg _]. pose proof (Hgood Hg) as Ok.
    destruct (ipv4_decode_success_form bs Ok) as (_ & _ & H3 & _). cbv zeta in *.
    rewrite Er, Ed, H3. cbn [istream.data]. split; [reflexivity|].
    rewrite skipn_skipn. f_equal. lia.
Qed.

(** X9: The ICMP header of a reply is taken from the eight bytes that follow
    the IPv4 header, at offset [header_length], options skipped; the reply
    decodes exactly when the IPv4 header does and these eight bytes are
    there. *)
Theorem decode_reply_reads_icmp_after_ipv4 (bs : list byte) :
  let hl := Z.to_nat (ipv4_header.header_length (snd (ipv4_decode bs))) in
  (istream.ok (fst (decode_reply bs)) = true <->
     istream.ok (fst (ipv4_decode bs)) = true /\ (hl + 8 <= length bs)%nat) /\
  (istream.ok (fst (decode_reply bs)) = true ->
     icmp_header.rep_ (snd (decode_reply bs)) = firstn 8 (skipn hl bs) /\
     istream.data (fst (decode_reply bs)) = skipn (hl + 8) bs).
Proof. exact (decode_reply_spec bs). Qed.

Lemma decode_reply_reads_icmp_after_ipv4_witness :
  istream.ok (fst (decode_reply reply_with_options)) = true /\
  icmp_header.rep_ (snd (decode_reply reply_with_options))
    = [x00; x00; x00; x00; x12; x34; x00; x01].
Proof.
  assert (H : istream.ok (fst (decode_reply reply_with_options)) = true)
    by (vm_compute; reflexivity).
  split; [exact H|].
  rewrite (proj1 (proj2 (decode_reply_reads_icmp_after_ipv4 reply_with_options) H)).
  vm_compute. reflexivity.
Defined.

(** X10: A datagram of fewer than 28 bytes (a 20-byte IPv4 header and the
    8-byte ICMP header) is never counted. *)
Theorem short_datagram_never_counted (env : environment) (p : pinger) (received : list byte) :
  reply_buffer_ p = [] -> (length received < 28)%nat ->
  num_replies_ (handle_receive env p received) = num_replies_ p.
Proof.
  intros Hb Hlen. rewrite handle_receive_num_replies, Hb. cbn [app].
  unfold reply_matched.
  destruct (istream.ok (fst (decode_reply received))) eqn:Ok; [|reflexivity].
  exfalso. apply (proj1 (decode_reply_spec received)) in Ok as [Ok Hl].
  destruct (ipv4_decode_success_form received Ok) as (H1 & _). cbv zeta in *. lia.
Qed.

Lemma short_datagram_never_counted_witness :
  reply_buffer_ (obj (ping_started sample_env 1 2 1000)) = [] /\
  (length (firstn 27 (echo_reply_datagram 4660 1)) < 28)%nat /\
  num_replies_ (handle_receive sample_env (obj (ping_started sample_env 1 2 1000))
                  (firstn 27 (echo_reply_datagram 4660 1))) = 0.
Proof.
  assert (H1 : reply_buffer_ (obj (ping_started sample_env 1 2 1000)) = [])
    by (vm_compute; reflexivity).
  assert (H2 : (length (firstn 27 (echo_reply_datagram 4660 1)) < 28)%nat)
    by (vm_compute; lia).
  split; [exact H1|]. split; [exact H2|].
  rewrite (short_datagram_never_counted sample_env _ _ H1 H2).
  vm_compute. reflexivity.
Defined.


Lemma dispatch_raise_wire (env : environment) (ev : event) (l l' : loop) (e : exception) :
  dispatch env ev l = Some (l', Some e) ->
  wire l' = wire l /\ num_replies_ (obj l') = num_replies_ (obj l).
Proof.
  unfold dispatch. destruct ev.
  - discriminate.
  - destruct (timer_wait (obj l)) as [h|]; [|discriminate].
    destruct (timer_expiry (obj l) <=? clock l); [|discriminate].
    destruct h; [discriminate|].
    unfold start_send. pinger_simpl.
    destruct (sequence_number_ (obj l) >=? count_ (obj l)); pinger_simpl; [discriminate|].
    destruct (send_to_ok env _); pinger_simpl; [discriminate|].
    intros [= <-]. pinger_simpl. split; [apply app_nil_r | reflexivity].
  - destruct (receive_wait (obj l) && socket_is_open (obj l)); discriminate.
  - destruct (receive_wait (obj l) && socket_is_open (obj l)); discriminate.
Qed.

Lemma wire_in_order_snoc (env : environment) (address now : Z) (w : list packet) :
  wire_in_order env address w ->
  wire_in_order env address
    (w ++ [mk_packet now address (echo_request_bytes env (Z.of_nat (length w) + 1))]).
Proof.
  intros [Hp Ha]. split.
  - rewrite map_app, length_app. cbn [length map payload].
    unfold probe_numbers in *. rewrite Nat.add_1_r, seq_S, map_app, map_app, <- Hp.
    cbn [map Nat.add]. do 3 f_equal. lia.
  - apply Forall_app. split; [exact Ha|]. constructor; [reflexivity | constructor].
Qed.

Lemma dispatch_wire_in_order (env : environment) (address c : Z) (ev : event) (l l' : loop) :
  c <= 255 -> run_inv c l -> destination_ (obj l) = address ->
  wire_in_order env address (wire l) ->
  dispatch env ev l = Some (l', None) ->
  destination_ (obj l') = address /\ wire_in_order env address (wire l').
Proof.
  intros Hc (Hcount & Hseq & Hwire & Hnone & Hnext) Hdest Hw. unfold dispatch.
  destruct ev.
  - intros [= <-]. pinger_simpl. split; assumption.
  - destruct (timer_wait (obj l)) as [h|] eqn:W; [|discriminate].
    destruct (timer_expiry (obj l) <=? clock l); [|discriminate].
    destruct h.
    + intros [= <-]. pinger_simpl. split; [|assumption].
      unfold cancelled_receive.
      destruct (negb _ && _).
      * destruct (handle_receive_frame env
                    (with_receive_wait false
                       (handle_timeout (with_timer (timer_expiry (obj l)) None (obj l)))) [])
          as (Ed & _).
        rewrite Ed. unfold handle_timeout. pinger_simpl.
        destruct (sequence_number_ (obj l) >=? count_ (obj l)); assumption.
      * unfold handle_timeout. pinger_simpl.
        destruct (sequence_number_ (obj l) >=? count_ (obj l)); assumption.
    + specialize (Hnext eq_refl). unfold start_send. pinger_simpl.
      replace (sequence_number_ (obj l) >=? count_ (obj l)) with false
        by (symmetry; rewrite Z.geb_leb; apply Z.leb_gt; lia).
      pinger_simpl.
      replace (to_uint8 (sequence_number_ (obj l) + 1)) with (sequence_number_ (obj l) + 1)
        by (symmetry; apply Z.mod_small; lia).
      destruct (send_to_ok env _); pinger_simpl; [|discriminate].
      intros [= <-]. pinger_simpl. split; [assumption|].
      rewrite Hdest, <- Hwire. apply wire_in_order_snoc, Hw.
  - destruct (receive_wait (obj l) && socket_is_open (obj l)); [|discriminate].
    intros [= <-]. pinger_simpl.
    destruct (handle_receive_frame env (with_receive_wait false (obj l))
                (bytes_transferred datagram)) as (Ed & _).
    rewrite Ed. split; assumption.
  - destruct (receive_wait (obj l) && socket_is_open (obj l)); [|discriminate].
    intros [= <-]. pinger_simpl.
    destruct (handle_receive_frame env (with_receive_wait false (obj l)) []) as (Ed & _).
    rewrite Ed. split; assumption.
Qed.

Lemma run_wire_in_order (env : environment) (address c : Z) (evs : list event) :
  c <= 255 ->
  forall l l' x,
    run_inv c l -> destination_ (obj l) = address ->
    wire_in_order env address (wire l) ->
    run env evs l = Some (l', x) ->
    wire_in_order env address (wire l') /\ Z.of_nat (length (wire l')) <= c.
Proof.
  intros Hc. induction evs as [|ev evs IH]; intros l l' x Hinv Hd Hw; cbn [run].
  - destruct (idle (obj l)); [|discriminate].
    intros [= <- _]. split; [assumption|]. destruct Hinv as (_ & ? & ? & _). lia.
  - destruct (idle (obj l)).
    { intros [= <- _]. split; [assumption|]. destruct Hinv as (_ & ? & ? & _). lia. }
    destruct (dispatch env ev l) as [[l1 [e|]]|] eqn:D; [| |discriminate].
    + intros [= <- _]. destruct (dispatch_raise_wire _ _ _ _ _ D) as [E _]. rewrite E.
      split; [assumption|]. destruct Hinv as (_ & ? & ? & _). lia.
    + destruct (dispatch_wire_in_order env address c ev l l1 Hc Hinv Hd Hw D) as [Hd1 Hw1].
      apply IH; try assumption. eapply dispatch_inv; eassumption.
Qed.

(** X11: Whatever the environment does, the datagrams [ping] has sent are the
    echo requests with the sequence numbers 1, 2, ..., in this order, each
    once, all to the address given, and at most max(count, 2) of them. *)
Theorem ping_sends_probes_in_order (env : environment) (evs : list event)
    (address count ms : Z) (l : loop) (x : option exception) :
  count <= 255 ->
  ping_session env evs address count ms = Some (l, x) ->
  map payload (wire l) = map (echo_request_bytes env) (probe_numbers (length (wire l))) /\
  Forall (fun pk => sent_to pk = address) (wire l) /\
  Z.of_nat (length (wire l)) <= Z.max count 2.
Proof.
  intros Hc. unfold ping_session. rewrite clamp_is_max.
  set (c := Z.max count 2).
  destruct (first_send env address c ms ltac:(lia)) as (Ecount & Eseq & _ & Hok & Hfail).
  assert (Hnil : wire_in_order env address []) by (split; [reflexivity | constructor]).
  destruct (send_to_ok env 1) eqn:S.
  - destruct (Hok eq_refl) as (Er & El & Et). rewrite Er. intros Hrun.
    assert (Hem : emitted (start_send env 0 (with_settings address c ms pinger_ctor))
                  = [mk_packet 0 address (echo_request_bytes env 1)]).
    { unfold start_send, pinger_ctor. pinger_simpl.
      replace (0 >=? c) with false by (symmetry; rewrite Z.geb_leb; apply Z.leb_gt; lia).
      change (to_uint8 (0 + 1)) with 1. rewrite S. reflexivity. }
    assert (Hdest : destination_ (after (start_send env 0
                      (with_settings address c ms pinger_ctor))) = address).
    { unfold start_send, pinger_ctor. pinger_simpl.
      destruct (0 >=? c); [reflexivity|]. destruct (send_to_ok env _); reflexivity. }
    assert (Hinv : run_inv c
              (mk_loop (start_receive (after (start_send env 0
                 (with_settings address c ms pinger_ctor)))) 0
                 (emitted (start_send env 0 (with_settings address c ms pinger_ctor))))).
    { unfold run_inv. pinger_simpl. rewrite Ecount, Eseq, El, Et.
      repeat split; try lia; discriminate. }
    set (l0 := mk_loop _ 0 _) in *.
    assert (Hd0 : destination_ (obj l0) = address) by (unfold l0; pinger_simpl; exact Hdest).
    assert (Hw0 : wire_in_order env address (wire l0)).
    { unfold l0. pinger_simpl. rewrite Hem.
      apply (wire_in_order_snoc env address 0 [] Hnil). }
    destruct (run_wire_in_order env address c evs ltac:(lia) l0 l x Hinv Hd0 Hw0 Hrun)
      as [[Hp Ha] Hn].
    repeat split; assumption.
  - rewrite (Hfail eq_refl). intros [= <- _]. pinger_simpl.
    assert (Hem : emitted (start_send env 0 (with_settings address c ms pinger_ctor)) = []).
    { unfold start_send, pinger_ctor. pinger_simpl.
      replace (0 >=? c) with false by (symmetry; rewrite Z.geb_leb; apply Z.leb_gt; lia).
      change (to_uint8 (0 + 1)) with 1. rewrite S. reflexivity. }
    rewrite Hem. repeat split; [constructor | cbn; lia].
Qed.

Lemma ping_sends_probes_in_order_witness :
  exists l x,
    2 <= 255 /\
    ping_session sample_env quiet_events 1 2 1000 = Some (l, x) /\
    map payload (wire l) = [echo_request_bytes sample_env 1; echo_request_bytes sample_env 2].
Proof.
  destruct (ping_session sample_env quiet_events 1 2 1000) as [[l x]|] eqn:E;
    [|vm_compute in E; discriminate E].
  exists l, x. split; [lia|]. split; [reflexivity|].
  destruct (ping_sends_probes_in_order sample_env quiet_events 1 2 1000 l x ltac:(lia) E)
    as (Hp & _ & _).
  rewrite Hp.
  assert (Hn : length (wire l) = 2%nat)
    by (vm_compute in E; injection E as <- _; reflexivity).
  rewrite Hn. reflexivity.
Defined.



Lemma spaced_snoc (ms t : Z) (ts : list Z) :
  spaced ms ts -> (ts <> [] -> last ts 0 + ms <= t) -> spaced ms (ts ++ [t]).
Proof.
  induction ts as [|t1 ts IH]; intros Hs Hl; [exact I|].
  destruct ts as [|t2 ts].
  - cbn. split; [|exact I]. apply Hl. discriminate.
  - destruct Hs as [H12 Hs]. cbn [app spaced]. split; [exact H12|].
    apply IH; [exact Hs|]. intros _. apply Hl. discriminate.
Qed.

Lemma last_snoc (t : Z) (ts : list Z) : last (ts ++ [t]) 0 = t.
Proof. apply last_last. Qed.

Lemma dispatch_timing (env : environment) (ev : event) (l l' : loop) :
  timing_inv l -> dispatch env ev l = Some (l', None) ->
  timing_inv l' /\ timer_interval_ (obj l') = timer_interval_ (obj l).
Proof.
  intros (Hexp & Hsp & Hlast). unfold dispatch. destruct ev.
  - intros [= <-]. unfold timing_inv. pinger_simpl. repeat split; assumption.
  - destruct (timer_wait (obj l)) as [h|] eqn:W; [|discriminate].
    destruct (timer_expiry (obj l) <=? clock l) eqn:Due; [|discriminate].
    apply Z.leb_le in Due. specialize (Hexp ltac:(discriminate)).
    destruct h.
    + intros [= <-]. unfold timing_inv. pinger_simpl.
      destruct (cancelled_receive_frame env
                  (handle_timeout (with_timer (timer_expiry (obj l)) None (obj l))))
        as (_ & _ & Ew & Ee & Et & Ei & _).
      rewrite Ew, Ee, Et, Ei. unfold handle_timeout. pinger_simpl.
      destruct (sequence_number_ (obj l) >=? count_ (obj l)); pinger_simpl;
        repeat split; try assumption; try reflexivity.
      intros C. exfalso. apply C. reflexivity.
    + unfold start_send. pinger_simpl.
      destruct (sequence_number_ (obj l) >=? count_ (obj l)); pinger_simpl.
      * intros [= <-]. unfold timing_inv. pinger_simpl. rewrite app_nil_r.
        repeat split; try assumption. intros C. exfalso. apply C. reflexivity.
      * destruct (send_to_ok env _); pinger_simpl; [|discriminate].
        intros [= <-]. unfold timing_inv. pinger_simpl.
        rewrite map_app. cbn [map sent_at].
        repeat split.
        -- apply spaced_snoc; [exact Hsp|].
           intros Hne. rewrite Hlast; [lia|].
           intros C. apply Hne. rewrite C. reflexivity.
        -- intros _. apply last_snoc.
  - destruct (receive_wait (obj l) && socket_is_open (obj l)); [|discriminate].
    intros [= <-]. unfold timing_inv. pinger_simpl.
    destruct (handle_receive_frame env (with_receive_wait false (obj l))
                (bytes_transferred datagram)) as (_ & _ & _ & Ei & Et & Ee & Ew & _).
    rewrite Ei, Et, Ee, Ew. pinger_simpl. repeat split; assumption.
  - destruct (receive_wait (obj l) && socket_is_open (obj l)); [|discriminate].
    intros [= <-]. unfold timing_inv. pinger_simpl.
    destruct (handle_receive_frame env (with_receive_wait false (obj l)) [])
      as (_ & _ & _ & Ei & Et & Ee & Ew & _).
    rewrite Ei, Et, Ee, Ew. pinger_simpl. repeat split; assumption.
Qed.

Lemma run_timing (env : environment) (evs : list event) :
  forall l l' x, timing_inv l -> run env evs l = Some (l', x) ->
  spaced (timer_interval_ (obj l)) (map sent_at (wire l')).
Proof.
  induction evs as [|ev evs IH]; intros l l' x Hinv; cbn [run].
  - destruct (idle (obj l)); [|discriminate]. intros [= <- _]. apply Hinv.
  - destruct (idle (obj l)); [intros [= <- _]; apply Hinv|].
    destruct (dispatch env ev l) as [[l1 [e|]]|] eqn:D; [| |discriminate].
    + intros [= <- _]. destruct (dispatch_raise_wire _ _ _ _ _ D) as [E _].
      rewrite E. apply Hinv.
    + intros Hrun. destruct (dispatch_timing env ev l l1 Hinv D) as [Hinv1 Ei].
      rewrite <- Ei. eapply IH; eassumption.
Qed.

(** X12: Consecutive probes are never sent less than one interval apart. *)
Theorem probes_one_interval_apart (env : environment) (evs : list event)
    (address count ms : Z) (l : loop) (x : option exception) :
  ping_session env evs address count ms = Some (l, x) ->
  spaced ms (map sent_at (wire l)).
Proof.
  unfold ping_session.
  set (p0 := with_settings address (if count <? 2 then 2 else count) ms pinger_ctor).
  assert (Hi : timer_interval_ (after (start_send env 0 p0)) = ms).
  { unfold start_send, p0, pinger_ctor. pinger_simpl.
    destruct (0 >=? _); [reflexivity|]. destruct (send_to_ok env _); reflexivity. }
  destruct (raised (start_send env 0 p0)) eqn:R.
  - intros [= <- _]. pinger_simpl.
    revert R. unfold start_send, p0, pinger_ctor. pinger_simpl.
    destruct (0 >=? _); pinger_simpl; [discriminate|].
    destruct (send_to_ok env _); pinger_simpl; [discriminate|]. intros _. exact I.
  - intros Hrun.
    assert (Hinv : timing_inv (mk_loop (start_receive (after (start_send env 0 p0))) 0
                                       (emitted (start_send env 0 p0)))).
    { unfold timing_inv. pinger_simpl.
      unfold start_send, p0, pinger_ctor. pinger_simpl.
      destruct (0 >=? _); pinger_simpl.
      - repeat split; try exact I; intros C; exfalso; apply C; reflexivity.
      - destruct (send_to_ok env _); pinger_simpl.
        + repeat split; try exact I; reflexivity.
        + repeat split; try exact I; intros C; exfalso; apply C; reflexivity. }
    pose proof (run_timing env evs _ _ _ Hinv Hrun) as Hs.
    pinger_simpl. rewrite Hi in Hs. exact Hs.
Qed.

Lemma probes_one_interval_apart_witness :
  exists l x,
    ping_session sample_env quiet_events 1 2 1000 = Some (l, x) /\
    spaced 1000 (map sent_at (wire l)).
Proof.
  destruct (ping_session sample_env quiet_events 1 2 1000) as [[l x]|] eqn:E;
    [|vm_compute in E; discriminate E].
  exists l, x. split; [reflexivity|].
  exact (probes_one_interval_apart sample_env quiet_events 1 2 1000 l x E).
Defined.


Lemma handle_receive_foreign (env : environment) (p : pinger) (received : list byte) :
  reply_buffer_ p = [] -> addressed_to env received = false ->
  num_replies_ (handle_receive env p received) = num_replies_ p.
Proof.
  intros Hb Hf. rewrite handle_receive_num_replies, Hb. cbn [app].
  unfold reply_matched. unfold addressed_to in Hf. rewrite Hf. reflexivity.
Qed.

Lemma handle_receive_buffer_when_waiting (env : environment) (p : pinger) (received : list byte) :
  receive_wait p = false ->
  receive_wait (handle_receive env p received) = true ->
  reply_buffer_ (handle_receive env p received) = [].
Proof.
  intros Hw. destruct (handle_receive_frame env p received)
    as (_ & _ & _ & _ & _ & _ & _ & _ & Er).
  rewrite Er, Hw, orb_false_r. intros H. apply Z.ltb_lt in H.
  apply handle_receive_buffer, H.
Qed.

Lemma addressed_to_nothing (env : environment) : addressed_to env [] = false.
Proof. reflexivity. Qed.

Lemma dispatch_nothing_counted (env : environment) (ev : event) (l l' : loop)
    (x : option exception) :
  (forall d, ev = Receive d -> addressed_to env (bytes_transferred d) = false) ->
  nothing_counted (obj l) -> dispatch env ev l = Some (l', x) ->
  nothing_counted (obj l').
Proof.
  intros Hev [Hn Hb]. unfold dispatch. destruct ev.
  - intros [= <- _]. pinger_simpl. split; assumption.
  - destruct (timer_wait (obj l)) as [h|] eqn:W; [|discriminate].
    destruct (timer_expiry (obj l) <=? clock l); [|discriminate].
    destruct h.
    + intros [= <- _]. pinger_simpl.
      set (p1 := handle_timeout (with_timer (timer_expiry (obj l)) None (obj l))).
      assert (H1 : nothing_counted p1).
      { unfold p1, handle_timeout. pinger_simpl.
        destruct (sequence_number_ (obj l) >=? count_ (obj l)); split; assumption. }
      destruct H1 as [Hn1 Hb1]. unfold cancelled_receive.
      destruct (negb (socket_is_open p1) && receive_wait p1) eqn:C; [|split; assumption].
      apply andb_prop in C as [_ C]. split.
      * rewrite handle_receive_foreign; pinger_simpl;
          [exact Hn1 | apply Hb1, C | apply addressed_to_nothing].
      * apply handle_receive_buffer_when_waiting. reflexivity.
    + intros [= <- _]. pinger_simpl. unfold start_send. pinger_simpl.
      destruct (sequence_number_ (obj l) >=? count_ (obj l)); pinger_simpl;
        [split; assumption|].
      destruct (send_to_ok env _); pinger_simpl; split; assumption.
  - destruct (receive_wait (obj l) && socket_is_open (obj l)) eqn:C; [|discriminate].
    apply andb_prop in C as [C _].
    intros [= <- _]. pinger_simpl. split.
    + rewrite handle_receive_foreign; pinger_simpl;
        [exact Hn | apply Hb, C | apply Hev; reflexivity].
    + apply handle_receive_buffer_when_waiting. reflexivity.
  - destruct (receive_wait (obj l) && socket_is_open (obj l)) eqn:C; [|discriminate].
    apply andb_prop in C as [C _].
    intros [= <- _]. pinger_simpl. split.
    + rewrite handle_receive_foreign; pinger_simpl;
        [exact Hn | apply Hb, C | apply addressed_to_nothing].
    + apply handle_receive_buffer_when_waiting. reflexivity.
Qed.

Lemma run_nothing_counted (env : environment) (evs : list event) :
  (forall d, In (Receive d) evs -> addressed_to env (bytes_transferred d) = false) ->
  forall l l' x, nothing_counted (obj l) -> run env evs l = Some (l', x) ->
  num_replies_ (obj l') = 0.
Proof.
  induction evs as [|ev evs IH]; intros Hev l l' x Hinv; cbn [run].
  - destruct (idle (obj l)); [|discriminate]. intros [= <- _]. apply Hinv.
  - destruct (idle (obj l)); [intros [= <- _]; apply Hinv|].
    destruct (dispatch env ev l) as [[l1 [e|]]|] eqn:D; [| |discriminate].
    + intros [= <- _].
      eapply dispatch_nothing_counted with (l := l); [|exact Hinv|exact D].
      intros d ->. apply Hev. left. reflexivity.
    + apply IH.
      * intros d Hd. apply Hev. right. exact Hd.
      * eapply dispatch_nothing_counted with (l := l); [|exact Hinv|exact D].
        intros d ->. apply Hev. left. reflexivity.
Qed.

(** X13: Datagrams that are not echo replies carrying the process token never
    make the verdict true: when every datagram received fails to decode,
    or is of another type, or carries another identifier, [ping] returns
    false. *)
Theorem foreign_datagrams_give_false (env : environment) (evs : list event)
    (address count ms : Z) (b : bool) :
  (forall d, In (Receive d) evs -> addressed_to env (bytes_transferred d) = false) ->
  ping env evs address count ms = Some (returns b) -> b = false.
Proof.
  intros Hev. unfold ping. destruct (socket_opens env); [|discriminate].
  destruct (ping_session env evs address count ms) as [[l x]|] eqn:E; [|discriminate].
  intros [= <-]. revert E. unfold ping_session. rewrite clamp_is_max.
  destruct (first_send env address (Z.max count 2) ms ltac:(lia))
    as (Ecount & _ & En & _ & _).
  destruct (raised (start_send env 0 _)).
  - intros [= <- _]. pinger_simpl. apply verdict_no_replies; [exact En | rewrite Ecount; lia].
  - intros Hrun. apply verdict_no_replies.
    + eapply run_nothing_counted; [exact Hev| |exact Hrun].
      pinger_simpl. split; [exact En | reflexivity].
    + rewrite (run_count _ _ _ _ _ Hrun). pinger_simpl. rewrite Ecount. lia.
Qed.

Lemma foreign_datagrams_give_false_witness :
  (forall d, In (Receive d) foreign_events ->
             addressed_to sample_env (bytes_transferred d) = false) /\
  ping sample_env foreign_events 1 2 1000 = Some (returns false).
Proof.
  assert (H : forall d, In (Receive d) foreign_events ->
                        addressed_to sample_env (bytes_transferred d) = false).
  { intros d Hd. unfold foreign_events, quiet_events in Hd. cbn [repeat app In] in Hd.
    repeat (destruct Hd as [Hd|Hd]; [first [discriminate Hd | injection Hd as <-; vm_compute; reflexivity]|]).
    destruct Hd. }
  split; [exact H|].
  destruct (ping sample_env foreign_events 1 2 1000) as [[b|e]|] eqn:E;
    [|vm_compute in E; discriminate E|vm_compute in E; discriminate E].
  rewrite (foreign_datagrams_give_false sample_env foreign_events 1 2 1000 b H E).
  reflexivity.
Defined.


Lemma handle_receive_nonneg (env : environment) (p : pinger) (received : list byte) :
  0 <= num_replies_ p -> 0 <= num_replies_ (handle_receive env p received).
Proof.
  intros H. rewrite handle_receive_num_replies.
  destruct (reply_matched _ _ _); [|exact H].
  unfold to_size_t. apply Z.mod_pos_bound. lia.
Qed.

Lemma dispatch_replies_nonneg (env : environment) (ev : event) (l l' : loop)
    (x : option exception) :
  0 <= num_replies_ (obj l) -> dispatch env ev l = Some (l', x) ->
  0 <= num_replies_ (obj l').
Proof.
  intros H. unfold dispatch. destruct ev.
  - intros [= <- _]. exact H.
  - destruct (timer_wait (obj l)) as [h|]; [|discriminate].
    destruct (timer_expiry (obj l) <=? clock l); [|discriminate].
    destruct h.
    + intros [= <- _]. pinger_simpl. unfold cancelled_receive.
      assert (H1 : 0 <= num_replies_
                (handle_timeout (with_timer (timer_expiry (obj l)) None (obj l)))).
      { unfold handle_timeout. pinger_simpl.
        destruct (sequence_number_ (obj l) >=? count_ (obj l)); exact H. }
      destruct (negb _ && _); [|exact H1].
      apply handle_receive_nonneg. pinger_simpl. exact H1.
    + intros [= <- _]. pinger_simpl.
      rewrite (proj2 (start_send_count _ _ _)). pinger_simpl. exact H.
  - destruct (receive_wait (obj l) && socket_is_open (obj l)); [|discriminate].
    intros [= <- _]. pinger_simpl. apply handle_receive_nonneg. exact H.
  - destruct (receive_wait (obj l) && socket_is_open (obj l)); [|discriminate].
    intros [= <- _]. pinger_simpl. apply handle_receive_nonneg. exact H.
Qed.

Lemma run_replies_nonneg (env : environment) (evs : list event) :
  forall l l' x, 0 <= num_replies_ (obj l) -> run env evs l = Some (l', x) ->
  0 <= num_replies_ (obj l').
Proof.
  induction evs as [|ev evs IH]; intros l l' x H; cbn [run].
  - destruct (idle (obj l)); [|discriminate]. intros [= <- _]. exact H.
  - destruct (idle (obj l)); [intros [= <- _]; exact H|].
    destruct (dispatch env ev l) as [[l1 [e|]]|] eqn:D; [| |discriminate].
    + intros [= <- _]. eapply dispatch_replies_nonneg; eassumption.
    + apply IH. eapply dispatch_replies_nonneg; eassumption.
Qed.

(** X14: While fewer than 256 replies were counted, the value [ping] returns is
    the strict majority test on the reply count against max(count, 2). *)
Theorem ping_is_majority_below_256 (env : environment) (evs : list event)
    (address count ms : Z) (l : loop) (x : option exception) :
  socket_opens env = true ->
  ping_session env evs address count ms = Some (l, x) ->
  num_replies_ (obj l) < 256 ->
  ping env evs address count ms
    = Some (returns (Z.max count 2 / 2 <? num_replies_ (obj l))).
Proof.
  intros Ho Hs Hn. unfold ping. rewrite Ho, Hs. do 2 f_equal.
  assert (H : count_ (obj l) = Z.max count 2 /\ 0 <= num_replies_ (obj l)).
  { revert Hs. unfold ping_session. rewrite clamp_is_max.
    destruct (first_send env address (Z.max count 2) ms ltac:(lia))
      as (Ecount & _ & En & _ & _).
    destruct (raised (start_send env 0 _)).
    - intros [= <- _]. pinger_simpl. rewrite En. split; [exact Ecount | lia].
    - intros Hrun. split.
      + rewrite (run_count _ _ _ _ _ Hrun). pinger_simpl. exact Ecount.
      + eapply run_replies_nonneg; [|exact Hrun]. pinger_simpl. rewrite En. lia. }
  destruct H as [Ec H0]. unfold verdict, to_uint8.
  rewrite Z.mod_small by (simpl; lia). rewrite Ec, Z.gtb_ltb.
  rewrite Z.quot_div_nonneg by lia. reflexivity.
Qed.

Lemma ping_is_majority_below_256_witness :
  exists l x,
    socket_opens sample_env = true /\
    ping_session sample_env triple_events 1 2 1000 = Some (l, x) /\
    num_replies_ (obj l) < 256 /\
    ping sample_env triple_events 1 2 1000 = Some (returns true).
Proof.
  destruct (ping_session sample_env triple_events 1 2 1000) as [[l x]|] eqn:E;
    [|vm_compute in E; discriminate E].
  assert (Hn : num_replies_ (obj l) = 3) by (vm_compute in E; injection E as <- _; reflexivity).
  exists l, x. split; [reflexivity|]. split; [reflexivity|].
  assert (Hlt : num_replies_ (obj l) < 256) by (rewrite Hn; reflexivity).
  split; [exact Hlt|].
  rewrite (ping_is_majority_below_256 sample_env triple_events 1 2 1000 l x eq_refl E Hlt).
  rewrite Hn. reflexivity.
Defined.

Lemma deaf_dispatch (env : environment) (ev : event) (l l' : loop) (x : option exception) :
  receive_wait (obj l) = false -> count_ (obj l) <= sequence_number_ (obj l) ->
  dispatch env ev l = Some (l', x) ->
  receive_wait (obj l') = false /\ count_ (obj l') <= sequence_number_ (obj l') /\
  num_replies_ (obj l') = num_replies_ (obj l) /\ wire l' = wire l.
Proof.
  intros Hw Hc. unfold dispatch. rewrite Hw. cbn [andb]. destruct ev; try discriminate.
  - intros [= <- _]. pinger_simpl. repeat split; assumption.
  - destruct (timer_wait (obj l)) as [h|]; [|discriminate].
    destruct (timer_expiry (obj l) <=? clock l); [|discriminate].
    assert (G : (sequence_number_ (obj l) >=? count_ (obj l)) = true)
      by (rewrite Z.geb_leb; apply Z.leb_le; exact Hc).
    destruct h.
    + intros [= <- _]. pinger_simpl. unfold handle_timeout. pinger_simpl. rewrite G.
      unfold cancelled_receive. pinger_simpl. rewrite Hw. cbn [andb negb]. pinger_simpl.
      repeat split; assumption.
    + unfold start_send. pinger_simpl. rewrite G. pinger_simpl.
      intros [= <- _]. pinger_simpl. rewrite app_nil_r. repeat split; assumption.
Qed.

Lemma deaf_play (env : environment) (evs : list event) :
  forall l l' x,
    receive_wait (obj l) = false -> count_ (obj l) <= sequence_number_ (obj l) ->
    play env evs l = Some (l', x) ->
    num_replies_ (obj l') = num_replies_ (obj l) /\ wire l' = wire l.
Proof.
  induction evs as [|ev evs IH]; intros l l' x Hw Hc; cbn [play].
  - intros [= <- _]. split; reflexivity.
  - destruct (dispatch env ev l) as [[l1 [e|]]|] eqn:D; [| |discriminate];
      destruct (deaf_dispatch env ev l l1 _ Hw Hc D) as (Hw1 & Hc1 & Hn1 & Hwi1).
    + intros [= <- _]. split; assumption.
    + intros H. destruct (IH _ _ _ Hw1 Hc1 H) as [Hn Hwi].
      split; congruence.
Qed.

(** X15: Once the last probe is sent, the first datagram that arrives, whatever
    it is, ends the listening: the receive is not re-armed, no later
    datagram can be delivered, and the reply count cannot change any
    more. *)
Theorem first_datagram_after_last_probe_ends_listening
    (env : environment) (l : loop) (d : list byte) :
  receive_wait (obj l) = true -> socket_is_open (obj l) = true ->
  count_ (obj l) <= sequence_number_ (obj l) ->
  exists l1,
    dispatch env (Receive d) l = Some (l1, None) /\
    receive_wait (obj l1) = false /\
    (forall d', dispatch env (Receive d') l1 = None) /\
    (forall evs l2 x, play env evs l1 = Some (l2, x) ->
                      num_replies_ (obj l2) = num_replies_ (obj l1)).
Proof.
  intros Hw Ho Hc. rewrite (dispatch_receive env d l Hw Ho).
  eexists. split; [reflexivity|]. pinger_simpl.
  destruct (handle_receive_frame env (with_receive_wait false (obj l)) (bytes_transferred d))
    as (_ & Es & Ec & _ & _ & _ & _ & _ & Er).
  pinger_simpl.
  assert (Hr : receive_wait (handle_receive env (with_receive_wait false (obj l))
                               (bytes_transferred d)) = false).
  { rewrite Er. replace (sequence_number_ (obj l) <? count_ (obj l)) with false
      by (symmetry; apply Z.ltb_ge; exact Hc). reflexivity. }
  split; [exact Hr|]. split.
  - intros d'. unfold dispatch. pinger_simpl. rewrite Hr. reflexivity.
  - intros evs l2 x Hp.
    apply (deaf_play env evs _ l2 x) in Hp; pinger_simpl.
    + apply Hp.
    + exact Hr.
    + rewrite Es, Ec. exact Hc.
Qed.

Lemma first_datagram_after_last_probe_ends_listening_witness :
  receive_wait (obj last_probe_sent) = true /\
  socket_is_open (obj last_probe_sent) = true /\
  count_ (obj last_probe_sent) <= sequence_number_ (obj last_probe_sent) /\
  exists l1,
    dispatch sample_env (Receive canonical_ipv4) last_probe_sent = Some (l1, None) /\
    dispatch sample_env (Receive (echo_reply_datagram 4660 2)) l1 = None.
Proof.
  assert (H1 : receive_wait (obj last_probe_sent) = true) by (vm_compute; reflexivity).
  assert (H2 : socket_is_open (obj last_probe_sent) = true) by (vm_compute; reflexivity).
  assert (H3 : count_ (obj last_probe_sent) <= sequence_number_ (obj last_probe_sent))
    by (vm_compute; discriminate).
  repeat (split; [assumption|]).
  destruct (first_datagram_after_last_probe_ends_listening sample_env last_probe_sent
              canonical_ipv4 H1 H2 H3) as (l1 & Hd & _ & Hn & _).
  exists l1. split; [exact Hd | apply Hn].
Defined.






Section QuietRun.

Variable env : environment.
Variables address c : Z.
Variable ms : N.
Hypothesis sends_ok : forall k, send_to_ok env k = true.
Hypothesis count_fits : c <= 255.

Let interval := Z.of_N ms.




End QuietRun.










Section AnsweredRun.

Variable env : environment.
Variables address c : Z.
Variable ms : N.
Hypothesis sends_ok : forall k, send_to_ok env k = true.
Hypothesis count_fits : c <= 255.

Let interval := Z.of_N ms.



End AnsweredRun.



